(** * helmbase: default-merging and shape conversion of Helm release arguments

    A shallow embedding of [base.go] (package [helmbase]): the release
    configuration record [ReleaseType], the default-merging [InitDefaults],
    the shape conversion [To] with its helpers, and the construction call
    [Construct].

    Conventions of the embedding:
    - a Go pointer field [*T] is an [option T]: [None] is [nil];
    - a Go [map[string]interface{}] field is an [option (gmap string GoValue)]:
      [None] is the nil map, which Go reads as an empty map;
    - where it matters that two map fields can hold one and the same map
      object, the record is taken together with its map objects ([Shared]),
      and [InitDefaults_shared_agrees] relates the two readings;
    - a Go [int] is a [Z] (the package only passes integers through);
    - a Go [error] is its message;
    - a function that mutates its argument through a pointer returns the
      mutated value; a function that may panic returns the state reached
      together with how it ended. *)

From stdpp Require Import gmap strings list fin_maps.
From Stdlib Require Import ZArith.

Set Warnings "-register-all".

Open Scope string_scope.

(** ** Go values *)

(** Go's [error], by its message. *)
Definition error : Type := string.

(** [errors.Errorf("unknown resource type %s; expected %s", typ, et)]. *)
Definition Errorf_unknown_resource_type (typ et : string) : error :=
  "unknown resource type " +:+ typ +:+ "; expected " +:+ et.

(** [errors.Wrap(err, msg)]. *)
Definition Wrap (err : error) (msg : string) : error :=
  msg +:+ ": " +:+ err.

(** The values an [interface{}] entry of a values map can hold: scalars,
    pointers (kept by address, never followed), lists and nested maps. *)
Inductive GoValue : Type :=
| GoNil
| GoBool (b : bool)
| GoInt (n : Z)
| GoString (s : string)
| GoPtr (addr : positive)
| GoSlice (l : list GoValue)
| GoMap (m : gmap string GoValue).

(** A [map[string]interface{}] variable: [None] is the nil map. *)
Abbreviation ValuesMap := (option (gmap string GoValue)).

(** [m[k]] in its comma-ok form: reading a nil map finds nothing. *)
Definition map_index (m : ValuesMap) (k : string) : option GoValue :=
  match m with
  | None => None
  | Some g => g !! k
  end.

(** The builtin [delete(m, k)]: a no-op on a nil map. *)
Definition go_delete (m : ValuesMap) (k : string) : ValuesMap :=
  match m with
  | None => None
  | Some g => Some (delete k g)
  end.

(** ** Constants *)

Definition FieldHelmStatusOutput : string := "status".
Definition FieldHelmOptionsInput : string := "helmOptions".

(** ** The Pulumi SDK types the package builds *)

Module pulumi.

(** [pulumi.AssetOrArchive], by what the asset is made from. *)
Inductive AssetOrArchive : Type :=
| FileAsset (path : string)
| StringAsset (text : string)
| RemoteAsset (uri : string)
| FileArchive (path : string)
| RemoteArchive (uri : string).

(** [pulumi.AssetOrArchiveInput]: a different Go type from
    [AssetOrArchive], which is what [toAssetOrArchiveArray] stumbles on. *)
Inductive AssetOrArchiveInput : Type :=
| AssetOrArchiveIn (a : AssetOrArchive).

(** [pulumi.AssetOrArchiveArray]; the nil slice is the empty list. *)
Abbreviation AssetOrArchiveArray := (list AssetOrArchiveInput).

(** [pulumi.BoolPtrInput]: the nil interface, or [pulumi.BoolPtr(v)]. *)
Inductive BoolPtrInput : Type :=
| BoolPtrNil
| BoolPtr (v : bool).

(** [pulumi.IntPtrInput]: the nil interface, or [pulumi.IntPtr(v)]. *)
Inductive IntPtrInput : Type :=
| IntPtrNil
| IntPtr (v : Z).

(** [pulumi.StringPtrInput]: the nil interface, or [pulumi.StringPtr(v)]. *)
Inductive StringPtrInput : Type :=
| StringPtrNil
| StringPtr (v : string).

(** [pulumi.StringInput], built by the conversion [pulumi.String(v)]. *)
Inductive StringInput : Type :=
| String (v : string).

(** [pulumi.Input] as [pulumi.ToOutput] wraps a plain value. *)
Inductive Input : Type :=
| ToOutput (v : GoValue).

(** [pulumi.ToMap]: a fresh map with every entry wrapped; a nil map
    ranges over nothing. *)
Definition ToMap (m : ValuesMap) : gmap string Input :=
  ToOutput <$> default ∅ m.

(** [pulumi.ToStringArray]. *)
Definition ToStringArray (l : list string) : list StringInput :=
  String <$> l.

(** [pulumi.ToStringArrayMap]. *)
Definition ToStringArrayMap (m : option (gmap string (list string)))
  : gmap string (list StringInput) :=
  ToStringArray <$> default ∅ m.

End pulumi.

(** ** The Helm SDK records *)

Module helmv3.

(** [helmv3.ReleaseStatus]: declared by the Kubernetes SDK and never
    inspected by this package, kept as its properties. *)
Record ReleaseStatus : Type := mkReleaseStatus {
  properties : gmap string GoValue
}.

(** [helmv3.RepositoryOpts]. *)
Record RepositoryOpts : Type := mkRepositoryOpts {
  CaFile : option string;
  CertFile : option string;
  KeyFile : option string;
  Password : option string;
  Repo : option string;
  Username : option string
}.

(** The argument shapes [helmv3.RepositoryOptsArgs] and
    [helmv3.ReleaseArgs], with the fields [To] fills. *)
Module Args.

Record RepositoryOptsArgs : Type := mkRepositoryOptsArgs {
  CaFile : pulumi.StringPtrInput;
  CertFile : pulumi.StringPtrInput;
  KeyFile : pulumi.StringPtrInput;
  Password : pulumi.StringPtrInput;
  Repo : pulumi.StringPtrInput;
  Username : pulumi.StringPtrInput
}.

Record ReleaseArgs : Type := mkReleaseArgs {
  Atomic : pulumi.BoolPtrInput;
  Chart : pulumi.StringInput;
  CleanupOnFail : pulumi.BoolPtrInput;
  CreateNamespace : pulumi.BoolPtrInput;
  DependencyUpdate : pulumi.BoolPtrInput;
  Description : pulumi.StringPtrInput;
  Devel : pulumi.BoolPtrInput;
  DisableCRDHooks : pulumi.BoolPtrInput;
  DisableOpenapiValidation : pulumi.BoolPtrInput;
  DisableWebhooks : pulumi.BoolPtrInput;
  ForceUpdate : pulumi.BoolPtrInput;
  Keyring : pulumi.StringPtrInput;
  Lint : pulumi.BoolPtrInput;
  Manifest : gmap string pulumi.Input;
  MaxHistory : pulumi.IntPtrInput;
  Name : pulumi.StringPtrInput;
  Namespace : pulumi.StringPtrInput;
  Postrender : pulumi.StringPtrInput;
  RecreatePods : pulumi.BoolPtrInput;
  RenderSubchartNotes : pulumi.BoolPtrInput;
  Replace : pulumi.BoolPtrInput;
  RepositoryOpts : RepositoryOptsArgs;
  ResetValues : pulumi.BoolPtrInput;
  ResourceNames : gmap string (list pulumi.StringInput);
  ReuseValues : pulumi.BoolPtrInput;
  SkipAwait : pulumi.BoolPtrInput;
  SkipCrds : pulumi.BoolPtrInput;
  Timeout : pulumi.IntPtrInput;
  ValueYamlFiles : pulumi.AssetOrArchiveArray;
  Values : gmap string pulumi.Input;
  Verify : pulumi.BoolPtrInput;
  Version : pulumi.StringPtrInput;
  WaitForJobs : pulumi.BoolPtrInput
}.

End Args.

End helmv3.

(** ** The release configuration *)

(** [ReleaseType], field for field. *)
Record ReleaseType : Type := mkReleaseType {
  Atomic : option bool;
  Chart : string;
  CleanupOnFail : option bool;
  CreateNamespace : option bool;
  DependencyUpdate : option bool;
  Description : option string;
  Devel : option bool;
  DisableCRDHooks : option bool;
  DisableOpenapiValidation : option bool;
  DisableWebhooks : option bool;
  ForceUpdate : option bool;
  Keyring : option string;
  Lint : option bool;
  Manifest : ValuesMap;
  MaxHistory : option Z;
  Name : option string;
  Namespace : option string;
  Postrender : option string;
  RecreatePods : option bool;
  RenderSubchartNotes : option bool;
  Replace : option bool;
  RepositoryOpts : helmv3.RepositoryOpts;
  ResetValues : option bool;
  ResourceNames : option (gmap string (list string));
  ReuseValues : option bool;
  SkipAwait : option bool;
  SkipCrds : option bool;
  Status : helmv3.ReleaseStatus;
  Timeout : option Z;
  ValueYamlFiles : list pulumi.AssetOrArchive;
  Values : ValuesMap;
  Verify : option bool;
  Version : option string;
  WaitForJobs : option bool
}.

(** The zero value [ReleaseType{}]: every pointer, map and slice nil, the
    chart name empty. *)
Definition zeroReleaseType : ReleaseType := {|
  Atomic := None; Chart := ""; CleanupOnFail := None;
  CreateNamespace := None; DependencyUpdate := None; Description := None;
  Devel := None; DisableCRDHooks := None; DisableOpenapiValidation := None;
  DisableWebhooks := None; ForceUpdate := None; Keyring := None;
  Lint := None; Manifest := None; MaxHistory := None; Name := None;
  Namespace := None; Postrender := None; RecreatePods := None;
  RenderSubchartNotes := None; Replace := None;
  RepositoryOpts := helmv3.mkRepositoryOpts None None None None None None;
  ResetValues := None; ResourceNames := None; ReuseValues := None;
  SkipAwait := None; SkipCrds := None;
  Status := helmv3.mkReleaseStatus ∅;
  Timeout := None; ValueYamlFiles := []; Values := None; Verify := None;
  Version := None; WaitForJobs := None
|}.

(** ** Field updates

    The three assignments [InitDefaults] makes through its pointer. *)

(** [args.Chart = chart]. *)
Definition set_Chart (chart : string) (args : ReleaseType) : ReleaseType := {|
  Atomic := Atomic args; Chart := chart; CleanupOnFail := CleanupOnFail args;
  CreateNamespace := CreateNamespace args;
  DependencyUpdate := DependencyUpdate args;
  Description := Description args; Devel := Devel args;
  DisableCRDHooks := DisableCRDHooks args;
  DisableOpenapiValidation := DisableOpenapiValidation args;
  DisableWebhooks := DisableWebhooks args; ForceUpdate := ForceUpdate args;
  Keyring := Keyring args; Lint := Lint args; Manifest := Manifest args;
  MaxHistory := MaxHistory args; Name := Name args;
  Namespace := Namespace args; Postrender := Postrender args;
  RecreatePods := RecreatePods args;
  RenderSubchartNotes := RenderSubchartNotes args; Replace := Replace args;
  RepositoryOpts := RepositoryOpts args; ResetValues := ResetValues args;
  ResourceNames := ResourceNames args; ReuseValues := ReuseValues args;
  SkipAwait := SkipAwait args; SkipCrds := SkipCrds args;
  Status := Status args; Timeout := Timeout args;
  ValueYamlFiles := ValueYamlFiles args; Values := Values args;
  Verify := Verify args; Version := Version args;
  WaitForJobs := WaitForJobs args
|}.

(** [args.RepositoryOpts.Repo = p]. *)
Definition set_Repo (p : option string) (args : ReleaseType) : ReleaseType := {|
  Atomic := Atomic args; Chart := Chart args;
  CleanupOnFail := CleanupOnFail args;
  CreateNamespace := CreateNamespace args;
  DependencyUpdate := DependencyUpdate args;
  Description := Description args; Devel := Devel args;
  DisableCRDHooks := DisableCRDHooks args;
  DisableOpenapiValidation := DisableOpenapiValidation args;
  DisableWebhooks := DisableWebhooks args; ForceUpdate := ForceUpdate args;
  Keyring := Keyring args; Lint := Lint args; Manifest := Manifest args;
  MaxHistory := MaxHistory args; Name := Name args;
  Namespace := Namespace args; Postrender := Postrender args;
  RecreatePods := RecreatePods args;
  RenderSubchartNotes := RenderSubchartNotes args; Replace := Replace args;
  RepositoryOpts := {|
    helmv3.CaFile := helmv3.CaFile (RepositoryOpts args);
    helmv3.CertFile := helmv3.CertFile (RepositoryOpts args);
    helmv3.KeyFile := helmv3.KeyFile (RepositoryOpts args);
    helmv3.Password := helmv3.Password (RepositoryOpts args);
    helmv3.Repo := p;
    helmv3.Username := helmv3.Username (RepositoryOpts args)
  |};
  ResetValues := ResetValues args;
  ResourceNames := ResourceNames args; ReuseValues := ReuseValues args;
  SkipAwait := SkipAwait args; SkipCrds := SkipCrds args;
  Status := Status args; Timeout := Timeout args;
  ValueYamlFiles := ValueYamlFiles args; Values := Values args;
  Verify := Verify args; Version := Version args;
  WaitForJobs := WaitForJobs args
|}.

(** [args.Values = m], also how a write through [&args.Values] lands. *)
Definition set_Values (m : ValuesMap) (args : ReleaseType) : ReleaseType := {|
  Atomic := Atomic args; Chart := Chart args;
  CleanupOnFail := CleanupOnFail args;
  CreateNamespace := CreateNamespace args;
  DependencyUpdate := DependencyUpdate args;
  Description := Description args; Devel := Devel args;
  DisableCRDHooks := DisableCRDHooks args;
  DisableOpenapiValidation := DisableOpenapiValidation args;
  DisableWebhooks := DisableWebhooks args; ForceUpdate := ForceUpdate args;
  Keyring := Keyring args; Lint := Lint args; Manifest := Manifest args;
  MaxHistory := MaxHistory args; Name := Name args;
  Namespace := Namespace args; Postrender := Postrender args;
  RecreatePods := RecreatePods args;
  RenderSubchartNotes := RenderSubchartNotes args; Replace := Replace args;
  RepositoryOpts := RepositoryOpts args; ResetValues := ResetValues args;
  ResourceNames := ResourceNames args; ReuseValues := ReuseValues args;
  SkipAwait := SkipAwait args; SkipCrds := SkipCrds args;
  Status := Status args; Timeout := Timeout args;
  ValueYamlFiles := ValueYamlFiles args; Values := m;
  Verify := Verify args; Version := Version args;
  WaitForJobs := WaitForJobs args
|}.

(** ** The decoder library, as [InitDefaults] uses it *)

Module mapstructure.

(** [mapstructure.DecoderConfig]. Its [Result] field is the pointer
    [&args.Values]: [Decode] below is handed what that pointer holds and
    returns what it holds afterwards. *)
Record DecoderConfig : Type := mkDecoderConfig {
  TagName : string
}.

(** The two entry points of the library, for payloads of type [P] (the
    [interface{}] handed to [Decode]).
    - [NewDecoder] yields a decoder or an error;
    - [Decode d input m] writes into the map variable holding [m] and
      yields its new content (what was written before a failure stays
      written) together with the error, if any. *)
Class Library (P : Type) : Type := {
  Decoder : Type;
  NewDecoder : DecoderConfig -> error + Decoder;
  Decode : Decoder -> P -> ValuesMap -> ValuesMap * option error
}.

End mapstructure.

(** ** Default-merging *)

(** How a call that has no result value ends. *)
Inductive Outcome : Type :=
| Returned
| Panicked (err : error).

(** [InitDefaults]: the record as the call leaves it behind its pointer,
    and how the call ended. The assignments made before a panic are kept:
    they went through the pointer. *)
Definition InitDefaults {P : Type} `{!mapstructure.Library P}
    (args : ReleaseType) (chart repo : string) (values : P)
  : ReleaseType * Outcome :=
  let args := if decide (Chart args = "") then set_Chart chart args else args in
  let args :=
    match helmv3.Repo (RepositoryOpts args) with
    | None => set_Repo (Some repo) args
    | Some _ => args
    end in
  let args :=
    match Values args with
    | None => set_Values (Some ∅) args
    | Some _ => args
    end in
  match mapstructure.NewDecoder {| mapstructure.TagName := "pulumi" |} with
  | inl err => (args, Panicked err)
  | inr d =>
      let '(m, err) := mapstructure.Decode d values (Values args) in
      let args := set_Values m args in
      match err with
      | Some err => (args, Panicked err)
      | None =>
          (set_Values (go_delete (Values args) FieldHelmOptionsInput) args,
           Returned)
      end
  end.

(** ** Shape conversion *)

Definition toBoolPtr (p : option bool) : pulumi.BoolPtrInput :=
  match p with
  | None => pulumi.BoolPtrNil
  | Some v => pulumi.BoolPtr v
  end.

Definition toIntPtr (p : option Z) : pulumi.IntPtrInput :=
  match p with
  | None => pulumi.IntPtrNil
  | Some v => pulumi.IntPtr v
  end.

Definition toStringPtr (p : option string) : pulumi.StringPtrInput :=
  match p with
  | None => pulumi.StringPtrNil
  | Some v => pulumi.StringPtr v
  end.

(** [toAssetOrArchiveArray]: [res] is declared, the loop that would fill
    it is commented out in the source, and [res] is returned as declared. *)
Definition toAssetOrArchiveArray (a : list pulumi.AssetOrArchive)
  : pulumi.AssetOrArchiveArray :=
  let res : pulumi.AssetOrArchiveArray := [] in
  res.

(** [To] turns the args struct into a Helm-ready [ReleaseArgs] struct. *)
Definition To (args : ReleaseType) : helmv3.Args.ReleaseArgs := {|
  helmv3.Args.Atomic := toBoolPtr (Atomic args);
  helmv3.Args.Chart := pulumi.String (Chart args);
  helmv3.Args.CleanupOnFail := toBoolPtr (CleanupOnFail args);
  helmv3.Args.CreateNamespace := toBoolPtr (CreateNamespace args);
  helmv3.Args.DependencyUpdate := toBoolPtr (DependencyUpdate args);
  helmv3.Args.Description := toStringPtr (Description args);
  helmv3.Args.Devel := toBoolPtr (Devel args);
  helmv3.Args.DisableCRDHooks := toBoolPtr (DisableCRDHooks args);
  helmv3.Args.DisableOpenapiValidation :=
    toBoolPtr (DisableOpenapiValidation args);
  helmv3.Args.DisableWebhooks := toBoolPtr (DisableWebhooks args);
  helmv3.Args.ForceUpdate := toBoolPtr (ForceUpdate args);
  helmv3.Args.Keyring := toStringPtr (Keyring args);
  helmv3.Args.Lint := toBoolPtr (Lint args);
  helmv3.Args.Manifest := pulumi.ToMap (Manifest args);
  helmv3.Args.MaxHistory := toIntPtr (MaxHistory args);
  helmv3.Args.Name := toStringPtr (Name args);
  helmv3.Args.Namespace := toStringPtr (Namespace args);
  helmv3.Args.Postrender := toStringPtr (Postrender args);
  helmv3.Args.RecreatePods := toBoolPtr (RecreatePods args);
  helmv3.Args.RenderSubchartNotes := toBoolPtr (RenderSubchartNotes args);
  helmv3.Args.Replace := toBoolPtr (Replace args);
  helmv3.Args.RepositoryOpts := {|
    helmv3.Args.CaFile := toStringPtr (helmv3.CaFile (RepositoryOpts args));
    helmv3.Args.CertFile := toStringPtr (helmv3.CertFile (RepositoryOpts args));
    helmv3.Args.KeyFile := toStringPtr (helmv3.KeyFile (RepositoryOpts args));
    helmv3.Args.Password := toStringPtr (helmv3.Password (RepositoryOpts args));
    helmv3.Args.Repo := toStringPtr (helmv3.Repo (RepositoryOpts args));
    helmv3.Args.Username := toStringPtr (helmv3.Username (RepositoryOpts args))
  |};
  helmv3.Args.ResetValues := toBoolPtr (ResetValues args);
  helmv3.Args.ResourceNames := pulumi.ToStringArrayMap (ResourceNames args);
  helmv3.Args.ReuseValues := toBoolPtr (ReuseValues args);
  helmv3.Args.SkipAwait := toBoolPtr (SkipAwait args);
  helmv3.Args.SkipCrds := toBoolPtr (SkipCrds args);
  helmv3.Args.Timeout := toIntPtr (Timeout args);
  helmv3.Args.ValueYamlFiles := toAssetOrArchiveArray (ValueYamlFiles args);
  helmv3.Args.Values := pulumi.ToMap (Values args);
  helmv3.Args.Verify := toBoolPtr (Verify args);
  helmv3.Args.Version := toStringPtr (Version args);
  helmv3.Args.WaitForJobs := toBoolPtr (WaitForJobs args)
|}.

(** What the contract of [To] asks of one optional scalar field, in the
    contract's words: unset stays unset, a set value passes through
    unchanged. [nil] and [ptr] are the two shapes of the output field. *)
Definition passes_through {V I : Type} (nil : I) (ptr : V -> I)
    (field : option V) (out : I) : Prop :=
  match field with
  | None => out = nil
  | Some v => out = ptr v
  end.

(** The optional scalar fields of the record, each with the field of
    [ReleaseArgs] that [To] fills from it: the pointer-typed booleans,
    integers and strings, the six of the repository options included. *)
Inductive ScalarField : Type :=
| BoolField (field : ReleaseType → option bool)
    (out : helmv3.Args.ReleaseArgs → pulumi.BoolPtrInput)
| IntField (field : ReleaseType → option Z)
    (out : helmv3.Args.ReleaseArgs → pulumi.IntPtrInput)
| StringField (field : ReleaseType → option string)
    (out : helmv3.Args.ReleaseArgs → pulumi.StringPtrInput).

Definition optional_scalar_fields : list ScalarField := [
  BoolField Atomic helmv3.Args.Atomic;
  BoolField CleanupOnFail helmv3.Args.CleanupOnFail;
  BoolField CreateNamespace helmv3.Args.CreateNamespace;
  BoolField DependencyUpdate helmv3.Args.DependencyUpdate;
  StringField Description helmv3.Args.Description;
  BoolField Devel helmv3.Args.Devel;
  BoolField DisableCRDHooks helmv3.Args.DisableCRDHooks;
  BoolField DisableOpenapiValidation helmv3.Args.DisableOpenapiValidation;
  BoolField DisableWebhooks helmv3.Args.DisableWebhooks;
  BoolField ForceUpdate helmv3.Args.ForceUpdate;
  StringField Keyring helmv3.Args.Keyring;
  BoolField Lint helmv3.Args.Lint;
  IntField MaxHistory helmv3.Args.MaxHistory;
  StringField Name helmv3.Args.Name;
  StringField Namespace helmv3.Args.Namespace;
  StringField Postrender helmv3.Args.Postrender;
  BoolField RecreatePods helmv3.Args.RecreatePods;
  BoolField RenderSubchartNotes helmv3.Args.RenderSubchartNotes;
  BoolField Replace helmv3.Args.Replace;
  StringField (λ a, helmv3.CaFile (RepositoryOpts a))
    (λ o, helmv3.Args.CaFile (helmv3.Args.RepositoryOpts o));
  StringField (λ a, helmv3.CertFile (RepositoryOpts a))
    (λ o, helmv3.Args.CertFile (helmv3.Args.RepositoryOpts o));
  StringField (λ a, helmv3.KeyFile (RepositoryOpts a))
    (λ o, helmv3.Args.KeyFile (helmv3.Args.RepositoryOpts o));
  StringField (λ a, helmv3.Password (RepositoryOpts a))
    (λ o, helmv3.Args.Password (helmv3.Args.RepositoryOpts o));
  StringField (λ a, helmv3.Repo (RepositoryOpts a))
    (λ o, helmv3.Args.Repo (helmv3.Args.RepositoryOpts o));
  StringField (λ a, helmv3.Username (RepositoryOpts a))
    (λ o, helmv3.Args.Username (helmv3.Args.RepositoryOpts o));
  BoolField ResetValues helmv3.Args.ResetValues;
  BoolField ReuseValues helmv3.Args.ReuseValues;
  BoolField SkipAwait helmv3.Args.SkipAwait;
  BoolField SkipCrds helmv3.Args.SkipCrds;
  IntField Timeout helmv3.Args.Timeout;
  BoolField Verify helmv3.Args.Verify;
  StringField Version helmv3.Args.Version;
  BoolField WaitForJobs helmv3.Args.WaitForJobs
].

(** Field [f] of [args] shows in [out] as the contract asks. *)
Definition converted (args : ReleaseType) (out : helmv3.Args.ReleaseArgs)
    (f : ScalarField) : Prop :=
  match f with
  | BoolField field o =>
      passes_through pulumi.BoolPtrNil pulumi.BoolPtr (field args) (o out)
  | IntField field o =>
      passes_through pulumi.IntPtrNil pulumi.IntPtr (field args) (o out)
  | StringField field o =>
      passes_through pulumi.StringPtrNil pulumi.StringPtr (field args) (o out)
  end.

(** Two records hold the same in field [f]. *)
Definition same_field (f : ScalarField) (a1 a2 : ReleaseType) : Prop :=
  match f with
  | BoolField field _ => field a1 = field a2
  | IntField field _ => field a1 = field a2
  | StringField field _ => field a1 = field a2
  end.

(** Two outputs hold the same in the field filled from [f]. *)
Definition same_output (f : ScalarField) (o1 o2 : helmv3.Args.ReleaseArgs)
  : Prop :=
  match f with
  | BoolField _ o => o o1 = o o2
  | IntField _ o => o o1 = o o2
  | StringField _ o => o o1 = o o2
  end.

(** ** A decoder for struct payloads *)

Module structdecoder.

(** One field of a Go struct value, as reflection shows it: its name, its
    package path (empty exactly when the field is exported), its tag (a
    table from tag keys such as [pulumi] to their text) and its value. A
    field value is of a non-struct kind, so it is stored as it is. *)
Record StructField : Type := mkStructField {
  FieldName : string;
  PkgPath : string;
  Tag : gmap string string;
  FieldValue : GoValue
}.

(** [f.Tag.Get(key)]: the empty string when the key is missing. *)
Definition Tag_Get (f : StructField) (key : string) : string :=
  default "" (Tag f !! key).

(** The payloads covered: the nil interface (or a nil pointer), a struct
    (or a pointer to one) and the scalar kinds. Payloads of map and slice
    kind, and tags with comma-separated options, are not covered. *)
Inductive Payload : Type :=
| Nil
| Struct (fields : list StructField)
| Bool (b : bool)
| Int (n : Z)
| Str (s : string).

(** [reflect.Kind.String()] of a payload (after indirection). *)
Definition Kind_String (data : Payload) : string :=
  match data with
  | Nil => "invalid"
  | Struct _ => "struct"
  | Bool _ => "bool"
  | Int _ => "int"
  | Str _ => "string"
  end.

(** Modelled from the spec: the struct-to-map decoding of the imported
    mapstructure library, whose code is not part of this package. Each
    exported field is written into the target map under the name its tag
    gives (the field's own name when it has no tag; a field tagged [-] is
    skipped), fields in declaration order, over whatever the map holds. *)
Fixpoint decodeMapFromStruct (tagName : string) (fields : list StructField)
    (valMap : gmap string GoValue) : gmap string GoValue :=
  match fields with
  | [] => valMap
  | f :: rest =>
      if decide (PkgPath f = "") then
        let tagValue := Tag_Get f tagName in
        if decide (tagValue = "-") then decodeMapFromStruct tagName rest valMap
        else
          let keyName :=
            if decide (tagValue = "") then FieldName f else tagValue in
          decodeMapFromStruct tagName rest (<[keyName := FieldValue f]> valMap)
      else decodeMapFromStruct tagName rest valMap
  end.

(** Modelled from the spec: decoding into a map target. A nil target is
    replaced by a fresh map; a payload that is neither a struct nor a map
    is refused and leaves the target as it was. *)
Definition decodeMap (cfg : mapstructure.DecoderConfig) (data : Payload)
    (val : ValuesMap) : ValuesMap * option error :=
  match data with
  | Struct fields =>
      (Some (decodeMapFromStruct (mapstructure.TagName cfg) fields
               (default ∅ val)), None)
  | _ => (val, Some ("'' expected a map, got '" +:+ Kind_String data +:+ "'"))
  end.

(** Modelled from the spec: [Decode]. Nil input sets nothing. *)
Definition decode (cfg : mapstructure.DecoderConfig) (input : Payload)
    (val : ValuesMap) : ValuesMap * option error :=
  match input with
  | Nil => (val, None)
  | _ => decodeMap cfg input val
  end.

(** The library at struct payloads. [NewDecoder] only refuses a [Result]
    that is not a pointer, and [&args.Values] is one. *)
#[global] Instance library : mapstructure.Library Payload := {|
  mapstructure.Decoder := mapstructure.DecoderConfig;
  mapstructure.NewDecoder cfg := inr cfg;
  mapstructure.Decode := decode
|}.

End structdecoder.

(** ** What the decoder contributes *)

(** The decoded payload: the entries that decoding [values] alone yields,
    that is, into an empty map. *)
Definition decoded_payload {P : Type} `{!mapstructure.Library P} (values : P)
  : gmap string GoValue :=
  match mapstructure.NewDecoder {| mapstructure.TagName := "pulumi" |} with
  | inl _ => ∅
  | inr d => default ∅ (mapstructure.Decode d values (Some ∅)).1
  end.

(** A decoder overlays its target when a successful decoding into a map
    leaves the decoded payload's entries on top of the entries the map had. *)
Definition overlays_target (P : Type) `{!mapstructure.Library P} : Prop :=
  ∀ d (values : P) (m : gmap string GoValue) (m' : ValuesMap),
    mapstructure.Decode d values (Some m) = (m', None) →
    m' = Some (default ∅ (mapstructure.Decode d values (Some ∅)).1 ∪ m).

(** ** Construction *)

(** Programs that call out to the engine: a result, or a call [e] whose
    answer the rest of the program waits for. *)
Inductive Prog (E : Type → Type) (T : Type) : Type :=
| Ret (r : T)
| Vis {X : Type} (e : E X) (k : X → Prog E T).

Arguments Ret {E T} r.
Arguments Vis {E T X} e k.

(** Running a program against an engine [h] acting on a world [W]: the
    world reached, the calls made in order, and the result. *)
Fixpoint run {E : Type → Type} {T W : Type}
    (h : ∀ X, E X → W → W * X) (p : Prog E T) (w : W)
  : W * list { X : Type & E X } * T :=
  match p with
  | Ret r => (w, [], r)
  | Vis e k =>
      let '(w1, x) := h _ e w in
      let '(w2, calls, r) := run h (k x) w1 in
      (w2, existT _ e :: calls, r)
  end.

(** How a call with a [(result, error)] signature ends. *)
Inductive Completion (T : Type) : Type :=
| Return (r : T)
| Fail (err : error)
| Panic (err : error).

Arguments Return {T} r.
Arguments Fail {T} err.
Arguments Panic {T} err.

(** The [Chart] interface (named [ChartComponent] here, [Chart] being the
    field of [ReleaseType]); [SetOutputs] mutates the component, so it
    yields the component as mutated. [Type_] is the method [Type]. *)
Class ChartComponent (ReleaseStatusOutput C : Type) : Type := {
  Type_ : C → string;
  SetOutputs : C → ReleaseStatusOutput → C;
  DefaultChartName : C → string;
  DefaultRepoURL : C → string
}.

(** The [ChartArgs] interface. [R] returns a pointer to the pointer field
    holding the release options: [R a] is what that field points to
    ([None] when it is nil) and [set_R a r] is [a] once the field points
    to [r]. *)
Class ChartArgs (A : Type) : Type := {
  R : A → option ReleaseType;
  set_R : A → ReleaseType → A
}.

Section Construct.

Context {ConstructInputs ResourceOption Release ReleaseStatusOutput
         ConstructResult : Type}.
(** The field [rel.Status] of a created release. *)
Context (Release_Status : Release → ReleaseStatusOutput).
Context {C A : Type} `{!ChartComponent ReleaseStatusOutput C} `{!ChartArgs A}
        `{!mapstructure.Library A}.

(** The calls [Construct] makes outside this package, each with the type
    of its answer. [CopyTo] answers the args as it left them. *)
Inductive Call : Type → Type :=
| CopyTo (inputs : ConstructInputs) (args : A) : Call (A * option error)
| RegisterComponentResource (typ name : string) (c : C)
    (opts : ResourceOption) : Call (option error)
| NewRelease (name : string) (args : helmv3.Args.ReleaseArgs) (parent : C)
  : Call (error + Release)
| RegisterResourceOutputs (c : C) (outputs : gmap string Release)
  : Call (option error)
| NewConstructResult (c : C) : Call (error + ConstructResult).

(** [Construct]: the component and the args as the call leaves them, and
    how it ended. The payload handed to [InitDefaults] is the args struct
    itself, whose release options are the record being defaulted; the
    struct holds them behind a pointer, so the payload is the same before
    and after the record's fields are assigned. *)
Definition Construct (c : C) (typ name : string) (args : A)
    (inputs : ConstructInputs) (opts : ResourceOption)
  : Prog Call (C * A * Completion ConstructResult) :=
  let et := Type_ c in
  if decide (typ ≠ et) then
    Ret (c, args, Fail (Errorf_unknown_resource_type typ et))
  else
  Vis (CopyTo inputs args) (λ '(args, err),
  match err with
  | Some err => Ret (c, args, Fail (Wrap err "setting args"))
  | None =>
  Vis (RegisterComponentResource typ name c opts) (λ err,
  match err with
  | Some err => Ret (c, args, Fail err)
  | None =>
  let '(args, relArgs) :=
    match R args with
    | None => (set_R args zeroReleaseType, zeroReleaseType)
    | Some r => (args, r)
    end in
  let '(relArgs, outcome) :=
    InitDefaults relArgs (DefaultChartName c) (DefaultRepoURL c) args in
  let args := set_R args relArgs in
  match outcome with
  | Panicked err => Ret (c, args, Panic err)
  | Returned =>
  Vis (NewRelease (name +:+ "-helm") (To relArgs) c) (λ r,
  match r with
  | inl err => Ret (c, args, Fail err)
  | inr rel =>
  let c := SetOutputs c (Release_Status rel) in
  Vis (RegisterResourceOutputs c {[ FieldHelmStatusOutput := rel ]}) (λ err,
  match err with
  | Some err => Ret (c, args, Fail err)
  | None =>
  Vis (NewConstructResult c) (λ r,
  match r with
  | inl err => Ret (c, args, Fail err)
  | inr res => Ret (c, args, Return res)
  end)
  end)
  end)
  end
  end)
  end).

End Construct.

(** ** A sample chart

    The chart of the end-to-end scenarios: default chart [nginx] from the
    repository [https://charts.example.com], with one typed value and the
    release options. *)

Module nginx.

Definition token : string := "nginx:index:Nginx".

(** The component: it remembers the status [SetOutputs] gave it. *)
Record Component : Type := mkComponent {
  Outputs : option helmv3.ReleaseStatus
}.

#[global] Instance chart : ChartComponent helmv3.ReleaseStatus Component := {|
  Type_ _ := token;
  SetOutputs _ out := mkComponent (Some out);
  DefaultChartName _ := "nginx";
  DefaultRepoURL _ := "https://charts.example.com"
|}.

(** The args struct: [Replicas *int `pulumi:"replicas"`] and
    [HelmOptions *ReleaseType `pulumi:"helmOptions"`]. *)
Record Args : Type := mkArgs {
  Replicas : option Z;
  HelmOptions : option ReleaseType
}.

#[global] Instance args : ChartArgs Args := {|
  R a := HelmOptions a;
  set_R a r := mkArgs (Replicas a) (Some r)
|}.

(** The args struct as the decoder's reflection sees it. A pointer field
    is a nil or an address; the decoder stores it without following it. *)
Definition fields (a : Args) : list structdecoder.StructField := [
  structdecoder.mkStructField "Replicas" "" {[ "pulumi" := "replicas" ]}
    (match Replicas a with None => GoNil | Some _ => GoPtr 1 end);
  structdecoder.mkStructField "HelmOptions" "" {[ "pulumi" := "helmOptions" ]}
    (match HelmOptions a with None => GoNil | Some _ => GoPtr 2 end)
].

#[global] Instance library : mapstructure.Library Args := {|
  mapstructure.Decoder := mapstructure.DecoderConfig;
  mapstructure.NewDecoder cfg := inr cfg;
  mapstructure.Decode d a := structdecoder.decode d (structdecoder.Struct (fields a))
|}.

(** An engine in which every call succeeds; its world is the list of the
    resource names registered so far, latest first. [CopyTo] of the empty
    input bag leaves the args alone. *)
Definition engine (X : Type)
    (e : Call (ConstructInputs := gmap string GoValue)
              (ResourceOption := unit) (Release := helmv3.ReleaseStatus)
              (ConstructResult := Component) (C := Component) (A := Args) X)
  : list string → list string * X :=
  match e in Call X return list string → list string * X with
  | CopyTo _ a => λ w, (w, (a, None))
  | RegisterComponentResource _ name _ _ => λ w, (name :: w, None)
  | NewRelease name _ _ => λ w, (name :: w, inr (helmv3.mkReleaseStatus ∅))
  | RegisterResourceOutputs _ _ => λ w, (w, None)
  | NewConstructResult c => λ w, (w, inr c)
  end.

(** A values map that already holds the reserved key and one more. *)
Definition crowded : gmap string GoValue :=
  {[ "helmOptions" := GoString "stale"; "replicas" := GoInt 1 ]}.

(** A payload that sets the reserved key and [replicas]. *)
Definition payload : structdecoder.Payload :=
  structdecoder.Struct [
    structdecoder.mkStructField "Replicas" "" {[ "pulumi" := "replicas" ]}
      (GoInt 3);
    structdecoder.mkStructField "HelmOptions" "" {[ "pulumi" := "helmOptions" ]}
      (GoPtr 2)
  ].

End nginx.

(** ** Observing a run of [Construct] *)

Section Calls.

Context {ConstructInputs ResourceOption Release ConstructResult C A : Type}.

(** The Go name of the function a call goes to. *)
Definition call_name {X : Type}
    (e : Call (ConstructInputs := ConstructInputs)
              (ResourceOption := ResourceOption) (Release := Release)
              (ConstructResult := ConstructResult) (C := C) (A := A) X)
  : string :=
  match e with
  | CopyTo _ _ => "CopyTo"
  | RegisterComponentResource _ _ _ _ => "RegisterComponentResource"
  | NewRelease _ _ _ => "NewRelease"
  | RegisterResourceOutputs _ _ => "RegisterResourceOutputs"
  | NewConstructResult _ => "NewConstructResult"
  end.

(** The names of the calls of a run, in the order they were made. *)
Definition call_names
    (calls : list { X : Type &
                    Call (ConstructInputs := ConstructInputs)
                         (ResourceOption := ResourceOption)
                         (Release := Release)
                         (ConstructResult := ConstructResult)
                         (C := C) (A := A) X })
  : list string :=
  (λ call, call_name (projT2 call)) <$> calls.

(** The releases a run asked for: name, arguments and parent of each
    [NewRelease] call. *)
Definition release_calls
    (calls : list { X : Type &
                    Call (ConstructInputs := ConstructInputs)
                         (ResourceOption := ResourceOption)
                         (Release := Release)
                         (ConstructResult := ConstructResult)
                         (C := C) (A := A) X })
  : list (string * helmv3.Args.ReleaseArgs * C) :=
  omap (λ call,
          match projT2 call with
          | NewRelease name args parent => Some (name, args, parent)
          | _ => None
          end) calls.

End Calls.

(** The statements of [Construct] that call out, in source order. *)
Definition Construct_call_order : list string :=
  ["CopyTo"; "RegisterComponentResource"; "NewRelease";
   "RegisterResourceOutputs"; "NewConstructResult"].

(** ** Engines and decoders that refuse *)

Module scenarios.

(** The engine of the sample chart, except that the call named [bad]
    fails with the error [boom]. *)
Definition failing (bad : string) (X : Type)
    (e : Call (ConstructInputs := gmap string GoValue)
              (ResourceOption := unit) (Release := helmv3.ReleaseStatus)
              (ConstructResult := nginx.Component) (C := nginx.Component)
              (A := nginx.Args) X)
  : list string → list string * X :=
  match e in Call X return list string → list string * X with
  | CopyTo _ a =>
      λ w, (w, (a, if decide (bad = "CopyTo") then Some "boom" else None))
  | RegisterComponentResource _ name _ _ =>
      λ w, if decide (bad = "RegisterComponentResource")
           then (w, Some "boom") else (name :: w, None)
  | NewRelease name _ _ =>
      λ w, if decide (bad = "NewRelease")
           then (w, inl "boom")
           else (name :: w, inr (helmv3.mkReleaseStatus ∅))
  | RegisterResourceOutputs _ _ =>
      λ w, (w, if decide (bad = "RegisterResourceOutputs")
               then Some "boom" else None)
  | NewConstructResult c =>
      λ w, (w, if decide (bad = "NewConstructResult")
               then inl "boom" else inr c)
  end.

(** A decoder library for the sample args that refuses every payload and
    writes nothing. *)
Definition refusing : mapstructure.Library nginx.Args := {|
  mapstructure.Decoder := mapstructure.DecoderConfig;
  mapstructure.NewDecoder cfg := inr cfg;
  mapstructure.Decode _ _ m := (m, Some "boom")
|}.

End scenarios.

(** ** Map objects behind the record

    A Go map is a reference to a map object, and [InitDefaults] writes
    into the object its values field holds: the decoder through
    [&args.Values], the builtin [delete] in place. The two fields of type
    [map[string]interface{}], the manifest and the values, may hold the
    same object. The state below keeps the map objects apart from the
    record, so that a write to an object shows in every field that holds
    it. An entry of a map that is itself a reference is a [GoPtr]: it is
    held by address. *)

(** [args.Manifest = m]. *)
Definition set_Manifest (m : ValuesMap) (args : ReleaseType) : ReleaseType := {|
  Atomic := Atomic args; Chart := Chart args;
  CleanupOnFail := CleanupOnFail args;
  CreateNamespace := CreateNamespace args;
  DependencyUpdate := DependencyUpdate args;
  Description := Description args; Devel := Devel args;
  DisableCRDHooks := DisableCRDHooks args;
  DisableOpenapiValidation := DisableOpenapiValidation args;
  DisableWebhooks := DisableWebhooks args; ForceUpdate := ForceUpdate args;
  Keyring := Keyring args; Lint := Lint args; Manifest := m;
  MaxHistory := MaxHistory args; Name := Name args;
  Namespace := Namespace args; Postrender := Postrender args;
  RecreatePods := RecreatePods args;
  RenderSubchartNotes := RenderSubchartNotes args; Replace := Replace args;
  RepositoryOpts := RepositoryOpts args; ResetValues := ResetValues args;
  ResourceNames := ResourceNames args; ReuseValues := ReuseValues args;
  SkipAwait := SkipAwait args; SkipCrds := SkipCrds args;
  Status := Status args; Timeout := Timeout args;
  ValueYamlFiles := ValueYamlFiles args; Values := Values args;
  Verify := Verify args; Version := Version args;
  WaitForJobs := WaitForJobs args
|}.

(** A record together with the map objects: [objects] are the map objects
    by address, [Manifest_at] and [Values_at] the objects the two map
    fields hold ([None] for a nil map), and [others] the remaining fields
    (the two map fields of [others] are not read). *)
Record Shared : Type := mkShared {
  objects : gmap positive (gmap string GoValue);
  Manifest_at : option positive;
  Values_at : option positive;
  others : ReleaseType
}.

(** What a map field shows: nil, or the entries of the object it holds. *)
Definition entries (objs : gmap positive (gmap string GoValue))
    (field : option positive) : ValuesMap :=
  match field with
  | None => None
  | Some l => Some (default ∅ (objs !! l))
  end.

(** The record by content: every map field with the entries it shows. *)
Definition contents (s : Shared) : ReleaseType :=
  set_Manifest (entries (objects s) (Manifest_at s))
    (set_Values (entries (objects s) (Values_at s)) (others s)).

(** An assignment to a field that is not a map. *)
Definition assign (f : ReleaseType → ReleaseType) (s : Shared) : Shared := {|
  objects := objects s;
  Manifest_at := Manifest_at s;
  Values_at := Values_at s;
  others := f (others s)
|}.

(** A new map object with the entries [g], at an address no object has
    and no field holds, and the values field made to hold it. *)
Definition alloc_Values (g : gmap string GoValue) (s : Shared) : Shared :=
  let l := fresh (dom (objects s) ∪ from_option singleton ∅ (Manifest_at s)) in
  {|
    objects := <[l := g]> (objects s);
    Manifest_at := Manifest_at s;
    Values_at := Some l;
    others := others s
  |}.

(** [args.Values = make(map[string]interface{})]. *)
Definition make_Values (s : Shared) : Shared := alloc_Values ∅ s.

(** What a decoding through [&args.Values] leaves when the variable ends
    up showing [m]: the decoder writes into the map the variable holds, so
    the object takes the entries of [m] (a nil variable gets a new
    object); a variable left nil holds no object any more. *)
Definition store_Values (m : ValuesMap) (s : Shared) : Shared :=
  match m, Values_at s with
  | Some g, Some l =>
      {| objects := <[l := g]> (objects s);
         Manifest_at := Manifest_at s;
         Values_at := Some l;
         others := others s |}
  | Some g, None => alloc_Values g s
  | None, _ =>
      {| objects := objects s;
         Manifest_at := Manifest_at s;
         Values_at := None;
         others := others s |}
  end.

(** [delete(args.Values, k)]: the entry leaves the object the field
    holds; nothing happens on a nil map. *)
Definition delete_Values (k : string) (s : Shared) : Shared :=
  match Values_at s with
  | Some l =>
      {| objects := <[l := delete k (default ∅ (objects s !! l))]> (objects s);
         Manifest_at := Manifest_at s;
         Values_at := Some l;
         others := others s |}
  | None => s
  end.

(** [InitDefaults] on the record with its map objects, statement by
    statement as in the source. *)
Definition InitDefaults_shared {P : Type} `{!mapstructure.Library P}
    (s : Shared) (chart repo : string) (values : P) : Shared * Outcome :=
  let s :=
    if decide (Chart (others s) = "") then assign (set_Chart chart) s
    else s in
  let s :=
    match helmv3.Repo (RepositoryOpts (others s)) with
    | None => assign (set_Repo (Some repo)) s
    | Some _ => s
    end in
  let s :=
    match Values_at s with
    | None => make_Values s
    | Some _ => s
    end in
  match mapstructure.NewDecoder {| mapstructure.TagName := "pulumi" |} with
  | inl err => (s, Panicked err)
  | inr d =>
      let '(m, err) :=
        mapstructure.Decode d values (entries (objects s) (Values_at s)) in
      let s := store_Values m s in
      match err with
      | Some err => (s, Panicked err)
      | None => (delete_Values FieldHelmOptionsInput s, Returned)
      end
  end.

(** The manifest field does not share its map object with the values
    field: it is nil, or the two fields differ in what they hold. *)
Definition apart (s : Shared) : Prop :=
  Manifest_at s = None ∨ Manifest_at s ≠ Values_at s.

(** Every statement of [InitDefaults] leaves the manifest field holding
    what it held, and, when the two map fields are apart, leaves them
    apart and the manifest's entries alone. *)
Definition spares_Manifest (f : Shared → Shared) : Prop :=
  ∀ s,
    Manifest_at (f s) = Manifest_at s ∧
    (apart s →
     apart (f s) ∧
     entries (objects (f s)) (Manifest_at s)
     = entries (objects s) (Manifest_at s)).

(** A decoder whose success does not depend on what the target map
    holds. *)
Definition success_ignores_target (P : Type) `{!mapstructure.Library P}
  : Prop :=
  ∀ d (values : P) (m1 m2 : gmap string GoValue) (m' : ValuesMap),
    mapstructure.Decode d values (Some m1) = (m', None) →
    ∃ m'' : ValuesMap, mapstructure.Decode d values (Some m2) = (m'', None).

(** A record whose manifest and values are one and the same map object,
    which holds the reserved key. *)
Definition one_map : Shared := {|
  objects := {[ 1%positive := nginx.crowded ]};
  Manifest_at := Some 1%positive;
  Values_at := Some 1%positive;
  others := zeroReleaseType
|}.

(** A record whose manifest and values are two map objects with the same
    entries. *)
Definition two_maps : Shared := {|
  objects := {[ 1%positive := nginx.crowded; 2%positive := nginx.crowded ]};
  Manifest_at := Some 1%positive;
  Values_at := Some 2%positive;
  others := zeroReleaseType
|}.

(** * Properties *)

(** ** Maps *)

Lemma map_index_go_delete (m : ValuesMap) (k : string) :
  map_index (go_delete m k) k = None.
Proof. destruct m as [g|]; simpl; [apply lookup_delete_eq | done]. Qed.

(** ** Default-merging *)

(** Opens a call of [InitDefaults] on a record given field by field and
    splits on each test the body makes. *)
Ltac InitDefaults_cases args :=
  unfold InitDefaults;
  destruct args as
    [? chart0 ? ? ? ? ? ? ? ? ? ? ? ? ? ? ? ? ? ? ? [? ? ? ? repo0 ?]
     ? ? ? ? ? ? ? ? vals0 ? ? ?];
  simpl;
  destruct (decide (chart0 = "")); destruct repo0; destruct vals0; simpl;
  destruct (mapstructure.NewDecoder _) as [?|d]; simpl;
  try (destruct (mapstructure.Decode d _ _) as [? [?|]]; simpl).

Section InitDefaults.

Context {P : Type} `{!mapstructure.Library P}.
Implicit Types (args : ReleaseType) (chart repo : string) (values : P).

(** The call returns exactly when the decoder can be built and decodes
    the payload into the values map (an empty one if there was none). *)
Lemma InitDefaults_returns_iff args chart repo values :
  (InitDefaults args chart repo values).2 = Returned ↔
  ∃ d m,
    mapstructure.NewDecoder {| mapstructure.TagName := "pulumi" |} = inr d ∧
    mapstructure.Decode d values (Some (default ∅ (Values args))) = (m, None).
Proof.
  unfold InitDefaults.
  destruct args as
    [? chart0 ? ? ? ? ? ? ? ? ? ? ? ? ? ? ? ? ? ? ? [? ? ? ? repo0 ?]
     ? ? ? ? ? ? ? ? vals0 ? ? ?];
  simpl.
  destruct (decide (chart0 = "")); destruct repo0; destruct vals0; simpl;
    (destruct (mapstructure.NewDecoder _) as [?|d]; simpl;
     [ split; [done | by intros (? & ? & ? & ?)] | ]);
    (destruct (mapstructure.Decode d _ _) as [m [?|]] eqn:Hd; simpl;
     [ split; [done | intros (? & ? & [= <-] & Hd'); rewrite Hd in Hd'; done]
     | split; [intros _; by exists d, m | done] ]).
Qed.

(** C1: whenever [InitDefaults] returns, whatever the record and the
    payload (also a payload that sets the reserved key itself, and a map
    that already held it), the reserved key [helmOptions] is absent from
    the values map of the record. *)
Theorem InitDefaults_removes_helmOptions args chart repo values args' :
  InitDefaults args chart repo values = (args', Returned) →
  map_index (Values args') FieldHelmOptionsInput = None.
Proof.
  InitDefaults_cases args; intros [= <-]; simpl; apply map_index_go_delete.
Qed.

(** C2: a record whose chart field is unset (the empty string) gets the
    supplied default chart identifier; a record whose chart field is set
    keeps its value. *)
Theorem InitDefaults_chart args chart repo values :
  (Chart args = "" →
     Chart (InitDefaults args chart repo values).1 = chart) ∧
  (Chart args ≠ "" →
     Chart (InitDefaults args chart repo values).1 = Chart args).
Proof.
  split; intros Hc; InitDefaults_cases args; simpl in Hc; congruence.
Qed.

(** C3: a record whose repository URL is unset (nil) gets the supplied
    default repository URL; a record whose repository URL is set keeps it. *)
Theorem InitDefaults_repo args chart repo values :
  (helmv3.Repo (RepositoryOpts args) = None →
     helmv3.Repo (RepositoryOpts (InitDefaults args chart repo values).1)
     = Some repo) ∧
  (∀ url, helmv3.Repo (RepositoryOpts args) = Some url →
     helmv3.Repo (RepositoryOpts (InitDefaults args chart repo values).1)
     = Some url).
Proof.
  split; [intros Hr | intros url Hr];
    InitDefaults_cases args; simpl in Hr; congruence.
Qed.

(** C5, as amended: after [InitDefaults] the repository URL is always set,
    and the chart field is set whenever the record's own chart or the
    supplied default chart identifier is non-empty. *)
Theorem InitDefaults_sets_repo_and_chart args chart repo values :
  helmv3.Repo (RepositoryOpts (InitDefaults args chart repo values).1) ≠ None ∧
  (Chart args ≠ "" ∨ chart ≠ "" →
     Chart (InitDefaults args chart repo values).1 ≠ "").
Proof.
  split; [| intros Hc]; InitDefaults_cases args; simpl in *;
    solve [done | intuition congruence].
Qed.

(** C9: when decoding the payload fails, [InitDefaults] panics with the
    decoder's error; it has no error result to return it in, and it does
    not return. *)
Theorem InitDefaults_decode_failure_panics args chart repo values d m err :
  mapstructure.NewDecoder {| mapstructure.TagName := "pulumi" |} = inr d →
  mapstructure.Decode d values (Some (default ∅ (Values args)))
    = (m, Some err) →
  (InitDefaults args chart repo values).2 = Panicked err ∧
  (InitDefaults args chart repo values).2 ≠ Returned.
Proof.
  intros Hn Hd. unfold InitDefaults.
  destruct args as
    [? chart0 ? ? ? ? ? ? ? ? ? ? ? ? ? ? ? ? ? ? ? [? ? ? ? repo0 ?]
     ? ? ? ? ? ? ? ? vals0 ? ? ?];
  simpl in *.
  destruct (decide (chart0 = "")); destruct repo0; destruct vals0; simpl in *;
    rewrite Hn; simpl; rewrite Hd; done.
Qed.

(** A decoder that cannot be built makes the call panic as well. *)
Lemma InitDefaults_no_decoder_panics args chart repo values err :
  mapstructure.NewDecoder {| mapstructure.TagName := "pulumi" |} = inl err →
  (InitDefaults args chart repo values).2 = Panicked err.
Proof.
  intros Hn. unfold InitDefaults. rewrite Hn.
  by repeat case_match.
Qed.

End InitDefaults.

(** ** Shape conversion *)

(** The asset conversion drops whatever it is given. *)
Lemma toAssetOrArchiveArray_empty (a : list pulumi.AssetOrArchive) :
  toAssetOrArchiveArray a = [].
Proof. done. Qed.

(** C6: whatever the record, and however many assets its list holds, [To]
    yields the empty result for the file-asset-list field. *)
Theorem To_ValueYamlFiles_empty (args : ReleaseType) :
  helmv3.Args.ValueYamlFiles (To args) = [].
Proof. unfold To; simpl. apply toAssetOrArchiveArray_empty. Qed.

Lemma toBoolPtr_passes_through (p : option bool) :
  passes_through pulumi.BoolPtrNil pulumi.BoolPtr p (toBoolPtr p).
Proof. by destruct p. Qed.

Lemma toIntPtr_passes_through (p : option Z) :
  passes_through pulumi.IntPtrNil pulumi.IntPtr p (toIntPtr p).
Proof. by destruct p. Qed.

Lemma toStringPtr_passes_through (p : option string) :
  passes_through pulumi.StringPtrNil pulumi.StringPtr p (toStringPtr p).
Proof. by destruct p. Qed.

(** C7: for every record, [To] maps each optional scalar field (booleans,
    integers, strings, those of the repository options included) to the
    unset output when it is unset and to the same value when it is set; and
    the output field depends on that field alone: two records that agree
    on it convert to outputs that agree on it. *)
Theorem To_optional_scalar_fields (args : ReleaseType) :
  Forall (converted args (To args)) optional_scalar_fields ∧
  ∀ args2 : ReleaseType,
    Forall (λ f, same_field f args args2 → same_output f (To args) (To args2))
      optional_scalar_fields.
Proof.
  split.
  - unfold optional_scalar_fields.
    repeat (apply Forall_cons; split;
              [first [ apply toBoolPtr_passes_through
                     | apply toIntPtr_passes_through
                     | apply toStringPtr_passes_through ] | ]).
    apply Forall_nil_2.
  - intros args2. unfold optional_scalar_fields.
    repeat (apply Forall_cons; split;
              [simpl; intros Heq; by rewrite Heq | ]).
    apply Forall_nil_2.
Qed.

(** ** The struct decoder *)

(** Decoding a struct into a map is decoding it into the empty map and
    laying the result over the map. *)
Lemma decodeMapFromStruct_union (tagName : string)
    (fields : list structdecoder.StructField) (m : gmap string GoValue) :
  structdecoder.decodeMapFromStruct tagName fields m
  = structdecoder.decodeMapFromStruct tagName fields ∅ ∪ m.
Proof.
  revert m. induction fields as [|f rest IH]; intros m; simpl.
  - by rewrite (left_id_L ∅ (∪)).
  - destruct (decide (structdecoder.PkgPath f = "")); [| apply IH].
    destruct (decide (structdecoder.Tag_Get f tagName = "-")); [apply IH |].
    rewrite IH. rewrite (IH (<[_ := _]> ∅)).
    rewrite <- (assoc_L (∪)). f_equal.
    by rewrite insert_union_singleton_l, insert_empty.
Qed.

(** The struct decoder overlays its target. *)
Lemma structdecoder_overlays : overlays_target structdecoder.Payload.
Proof.
  intros d values m m' Hd. destruct values; simpl in *;
    try discriminate; injection Hd as <-.
  - by rewrite (left_id_L ∅ (∪)).
  - f_equal. apply decodeMapFromStruct_union.
Qed.

(** With the struct decoder, [InitDefaults] returns on every struct
    payload and on the nil payload. *)
Lemma InitDefaults_returns_on_structs (args : ReleaseType)
    (chart repo : string) (fields : list structdecoder.StructField) :
  (InitDefaults args chart repo (structdecoder.Struct fields)).2 = Returned ∧
  (InitDefaults args chart repo structdecoder.Nil).2 = Returned.
Proof. split; apply InitDefaults_returns_iff; simpl; eauto. Qed.

(** ** Payload against map *)

(** C4, as amended: let the decoder overlay its target and [InitDefaults]
    return. For every key other than the reserved key [helmOptions]: if
    the decoded payload has the key, the values map of the record holds
    the payload's value for it afterwards, whatever the map held before;
    if the decoded payload does not have the key, the map holds for it
    what it held before. *)
Theorem InitDefaults_payload_wins {P : Type} `{!mapstructure.Library P}
    (args : ReleaseType) (chart repo : string) (values : P)
    (args' : ReleaseType) (k : string) :
  overlays_target P →
  InitDefaults args chart repo values = (args', Returned) →
  k ≠ FieldHelmOptionsInput →
  (∀ v, decoded_payload values !! k = Some v →
        map_index (Values args') k = Some v) ∧
  (decoded_payload values !! k = None →
        map_index (Values args') k = map_index (Values args) k).
Proof.
  intros Hlaw Hret Hk.
  assert (Hr : (InitDefaults args chart repo values).2 = Returned)
    by (by rewrite Hret).
  apply InitDefaults_returns_iff in Hr as (d & m & Hn & Hd).
  pose proof (Hlaw _ _ _ _ Hd) as Hm.
  assert (Hdp : decoded_payload values
                = default ∅ (mapstructure.Decode d values (Some ∅)).1)
    by (unfold decoded_payload; by rewrite Hn).
  rewrite <- Hdp in Hm. clear Hdp.
  generalize dependent (decoded_payload values). intros dp Hm. subst m.
  assert (Hv : Values args' = Some (delete FieldHelmOptionsInput
            (dp ∪ default ∅ (Values args)))).
  { revert Hret. unfold InitDefaults. rewrite Hn.
    destruct args as
      [? chart0 ? ? ? ? ? ? ? ? ? ? ? ? ? ? ? ? ? ? ? [? ? ? ? repo0 ?]
       ? ? ? ? ? ? ? ? vals0 ? ? ?];
    simpl in *.
    destruct (decide (chart0 = "")); destruct repo0; destruct vals0;
      simpl in *; rewrite Hd; simpl; by intros [= <-]. }
  rewrite Hv. simpl. rewrite lookup_delete_ne by done.
  split.
  - intros v Hp. by apply lookup_union_Some_l.
  - intros Hp. rewrite lookup_union_r by done.
    by destruct (Values args).
Qed.

(** ** Construction *)

Section ConstructProperties.

Context {ConstructInputs ResourceOption Release ReleaseStatusOutput
         ConstructResult : Type}.
Context (Release_Status : Release → ReleaseStatusOutput).
Context {C A : Type} {chartC : ChartComponent ReleaseStatusOutput C}
        {argsA : ChartArgs A} {libA : mapstructure.Library A}.

(** C8: when the requested type token differs from the component's
    declared type, [Construct] ends with the type-mismatch error, and it
    does so before any call leaves the package: against every engine and
    from every world, the world is left as it was and the list of calls
    made is empty, so neither the parent component nor the child release
    is registered; the component and the args are untouched too. *)
Theorem Construct_type_mismatch {W : Type}
    (h : ∀ X, Call (ConstructInputs := ConstructInputs)
                   (ResourceOption := ResourceOption) (Release := Release)
                   (ConstructResult := ConstructResult) (C := C) (A := A) X
              → W → W * X)
    (w : W) (c : C) (typ name : string) (args : A)
    (inputs : ConstructInputs) (opts : ResourceOption) :
  typ ≠ Type_ c →
  run h (Construct Release_Status c typ name args inputs opts) w
  = (w, [], (c, args, Fail (Errorf_unknown_resource_type typ (Type_ c)))).
Proof.
  intros Hne. unfold Construct.
  destruct (decide (typ ≠ Type_ c)) as [_|Heq]; [reflexivity | contradiction].
Qed.

(** With the right token the first call out is the copy of the inputs. *)
Lemma Construct_type_match (c : C) (typ name : string) (args : A)
    (inputs : ConstructInputs) (opts : ResourceOption) :
  typ = Type_ c →
  ∃ k, Construct (ConstructResult := ConstructResult) Release_Status
         c typ name args inputs opts
       = Vis (CopyTo inputs args) k.
Proof.
  intros Heq. unfold Construct.
  destruct (decide (typ ≠ Type_ c)) as [Hne|_]; [contradiction | eauto].
Qed.

End ConstructProperties.

(** ** The scenarios of the sample chart *)

(** The token matches and the input bag is empty: the parent is
    registered before the child, five calls are made, and the release
    options end with the default chart and repository and without the
    reserved key. *)
Example nginx_construct_registers_parent_then_child :
  let '(w, calls, (_, a, r)) :=
    run nginx.engine
      (Construct id (nginx.mkComponent None) nginx.token "web"
         (nginx.mkArgs None None) ∅ tt) [] in
  w = ["web-helm"; "web"] ∧ length calls = 5 ∧
  (∃ res, r = Return res) ∧
  Chart <$> R a = Some "nginx" ∧
  (λ rel, helmv3.Repo (RepositoryOpts rel)) <$> R a
    = Some (Some "https://charts.example.com") ∧
  (λ rel, map_index (Values rel) FieldHelmOptionsInput) <$> R a = Some None.
Proof. vm_compute. repeat split; eauto. Qed.

(** ** Instances on concrete inputs *)

(** C1 on a map that holds the reserved key and a payload that sets it. *)
Lemma InitDefaults_removes_helmOptions_witness :
  map_index (Some nginx.crowded) FieldHelmOptionsInput
    = Some (GoString "stale") ∧
  decoded_payload nginx.payload !! FieldHelmOptionsInput = Some (GoPtr 2) ∧
  map_index
    (Values (InitDefaults (set_Values (Some nginx.crowded) zeroReleaseType)
               "nginx" "https://charts.example.com" nginx.payload).1)
    FieldHelmOptionsInput = None.
Proof.
  split; [reflexivity | split; [reflexivity |]].
  apply (InitDefaults_removes_helmOptions
           (set_Values (Some nginx.crowded) zeroReleaseType)
           "nginx" "https://charts.example.com" nginx.payload).
  vm_compute. reflexivity.
Defined.

(** C2 on the empty record and on a record with a chart of its own. *)
Lemma InitDefaults_chart_witness :
  Chart (InitDefaults zeroReleaseType "nginx" "https://charts.example.com"
           structdecoder.Nil).1 = "nginx" ∧
  Chart (InitDefaults (set_Chart "custom" zeroReleaseType) "nginx"
           "https://charts.example.com" structdecoder.Nil).1 = "custom".
Proof.
  split.
  - apply (proj1 (InitDefaults_chart zeroReleaseType "nginx"
                    "https://charts.example.com" structdecoder.Nil)).
    reflexivity.
  - apply (proj2 (InitDefaults_chart (set_Chart "custom" zeroReleaseType)
                    "nginx" "https://charts.example.com" structdecoder.Nil)).
    simpl. discriminate.
Defined.

(** C3 on the empty record and on a record with a repository of its own. *)
Lemma InitDefaults_repo_witness :
  helmv3.Repo (RepositoryOpts
    (InitDefaults zeroReleaseType "nginx" "https://charts.example.com"
       structdecoder.Nil).1) = Some "https://charts.example.com" ∧
  helmv3.Repo (RepositoryOpts
    (InitDefaults (set_Repo (Some "https://mirror.example.org") zeroReleaseType)
       "nginx" "https://charts.example.com" structdecoder.Nil).1)
  = Some "https://mirror.example.org".
Proof.
  split.
  - apply (proj1 (InitDefaults_repo zeroReleaseType "nginx"
                    "https://charts.example.com" structdecoder.Nil)).
    reflexivity.
  - apply (proj2 (InitDefaults_repo
                    (set_Repo (Some "https://mirror.example.org")
                       zeroReleaseType)
                    "nginx" "https://charts.example.com" structdecoder.Nil)).
    reflexivity.
Defined.

(** C5, as amended, on the empty record with the default chart [nginx]. *)
Lemma InitDefaults_sets_repo_and_chart_witness :
  helmv3.Repo (RepositoryOpts
    (InitDefaults zeroReleaseType "nginx" "https://charts.example.com"
       structdecoder.Nil).1) ≠ None ∧
  Chart (InitDefaults zeroReleaseType "nginx" "https://charts.example.com"
           structdecoder.Nil).1 ≠ "".
Proof.
  split.
  - apply (proj1 (InitDefaults_sets_repo_and_chart zeroReleaseType "nginx"
                    "https://charts.example.com" structdecoder.Nil)).
  - apply (proj2 (InitDefaults_sets_repo_and_chart zeroReleaseType "nginx"
                    "https://charts.example.com" structdecoder.Nil)).
    right. discriminate.
Defined.

(** C5 as stated fails: with no chart in the record and an empty default
    chart identifier, [InitDefaults] returns and the chart field is still
    unset. *)
Lemma InitDefaults_chart_stays_unset :
  (InitDefaults zeroReleaseType "" "https://charts.example.com"
     structdecoder.Nil).2 = Returned ∧
  Chart (InitDefaults zeroReleaseType "" "https://charts.example.com"
           structdecoder.Nil).1 = "".
Proof. split; reflexivity. Qed.

(** C9 on an integer payload, which the struct decoder refuses. *)
Lemma InitDefaults_decode_failure_panics_witness :
  (InitDefaults (set_Values (Some nginx.crowded) zeroReleaseType) "nginx"
     "https://charts.example.com" (structdecoder.Int 3)).2
  = Panicked "'' expected a map, got 'int'" ∧
  (InitDefaults (set_Values (Some nginx.crowded) zeroReleaseType) "nginx"
     "https://charts.example.com" (structdecoder.Int 3)).2 ≠ Returned.
Proof.
  apply (@InitDefaults_decode_failure_panics _ structdecoder.library
           (set_Values (Some nginx.crowded) zeroReleaseType) "nginx"
           "https://charts.example.com" (structdecoder.Int 3)
           {| mapstructure.TagName := "pulumi" |} (Some nginx.crowded)
           "'' expected a map, got 'int'");
    reflexivity.
Defined.

(** C4, as amended, at the key [replicas]: the payload's 3 replaces the
    map's 1, and a payload without the key leaves the 1 in place. *)
Lemma InitDefaults_payload_wins_witness :
  map_index (Some nginx.crowded) "replicas" = Some (GoInt 1) ∧
  map_index
    (Values (InitDefaults (set_Values (Some nginx.crowded) zeroReleaseType)
               "nginx" "https://charts.example.com" nginx.payload).1)
    "replicas" = Some (GoInt 3) ∧
  map_index
    (Values (InitDefaults (set_Values (Some nginx.crowded) zeroReleaseType)
               "nginx" "https://charts.example.com" structdecoder.Nil).1)
    "replicas" = Some (GoInt 1).
Proof.
  split; [reflexivity | split].
  - apply (proj1 (InitDefaults_payload_wins
                    (set_Values (Some nginx.crowded) zeroReleaseType)
                    "nginx" "https://charts.example.com" nginx.payload
                    _ "replicas" structdecoder_overlays
                    ltac:(vm_compute; reflexivity) ltac:(discriminate))).
    reflexivity.
  - apply (proj2 (InitDefaults_payload_wins
                    (set_Values (Some nginx.crowded) zeroReleaseType)
                    "nginx" "https://charts.example.com" structdecoder.Nil
                    _ "replicas" structdecoder_overlays
                    ltac:(vm_compute; reflexivity) ltac:(discriminate))).
    reflexivity.
Defined.

(** C4 as stated fails at the reserved key: the map held it, the decoded
    payload has it, and after [InitDefaults] the map holds no value for
    it; and a payload that does not introduce it does not keep the value
    the map held either. *)
Lemma InitDefaults_reserved_key_not_kept :
  (InitDefaults (set_Values (Some nginx.crowded) zeroReleaseType) "nginx"
     "https://charts.example.com" nginx.payload).2 = Returned ∧
  map_index (Values (set_Values (Some nginx.crowded) zeroReleaseType))
    FieldHelmOptionsInput = Some (GoString "stale") ∧
  decoded_payload nginx.payload !! FieldHelmOptionsInput = Some (GoPtr 2) ∧
  map_index
    (Values (InitDefaults (set_Values (Some nginx.crowded) zeroReleaseType)
               "nginx" "https://charts.example.com" nginx.payload).1)
    FieldHelmOptionsInput ≠ Some (GoPtr 2) ∧
  (InitDefaults (set_Values (Some nginx.crowded) zeroReleaseType) "nginx"
     "https://charts.example.com" structdecoder.Nil).2 = Returned ∧
  decoded_payload structdecoder.Nil !! FieldHelmOptionsInput = None ∧
  map_index
    (Values (InitDefaults (set_Values (Some nginx.crowded) zeroReleaseType)
               "nginx" "https://charts.example.com" structdecoder.Nil).1)
    FieldHelmOptionsInput ≠ Some (GoString "stale").
Proof. vm_compute. repeat split; discriminate. Qed.

(** C8 on the sample chart asked for under another token. *)
Lemma Construct_type_mismatch_witness :
  run nginx.engine
    (Construct id (nginx.mkComponent None) "other:index:Thing" "web"
       (nginx.mkArgs None None) ∅ tt) []
  = ([], [],
     (nginx.mkComponent None, nginx.mkArgs None None,
      Fail "unknown resource type other:index:Thing; expected nginx:index:Nginx")).
Proof.
  exact (Construct_type_mismatch (chartC := nginx.chart)
           id nginx.engine [] (nginx.mkComponent None)
           "other:index:Thing" "web" (nginx.mkArgs None None) ∅ tt
           ltac:(vm_compute; discriminate)).
Defined.

(** * Further properties *)

(** ** The record [InitDefaults] leaves *)

(** Whether the struct decoder succeeds depends on the payload alone. *)
Lemma structdecoder_success_ignores_target :
  success_ignores_target structdecoder.Payload.
Proof.
  intros d values m1 m2 m' Hd.
  destruct values; simpl in *; try discriminate; eauto.
Qed.

Lemma go_delete_Some (g : gmap string GoValue) (k : string) :
  go_delete (Some g) k = Some (delete k g).
Proof. reflexivity. Qed.

Lemma Values_set_Values (m : ValuesMap) (args : ReleaseType) :
  Values (set_Values m args) = m.
Proof. reflexivity. Qed.

Lemma Chart_after_sets (m : ValuesMap) (r : option string) (c : string)
    (args : ReleaseType) :
  Chart (set_Values m (set_Repo r (set_Chart c args))) = c.
Proof. reflexivity. Qed.

Lemma Repo_after_sets (m : ValuesMap) (r : option string) (c : string)
    (args : ReleaseType) :
  helmv3.Repo (RepositoryOpts (set_Values m (set_Repo r (set_Chart c args))))
  = r.
Proof. reflexivity. Qed.

(** Assigning the three fields again to what they hold changes nothing. *)
Lemma set_fields_fixed (m : ValuesMap) (r : option string) (c : string)
    (args : ReleaseType) :
  set_Values m
    (set_Repo r (set_Chart c (set_Values m (set_Repo r (set_Chart c args)))))
  = set_Values m (set_Repo r (set_Chart c args)).
Proof. reflexivity. Qed.

Section InitDefaultsRecord.

Context {P : Type} {libP : mapstructure.Library P}.
Implicit Types (args : ReleaseType) (chart repo : string) (values : P).

(** A call that returns went through all its statements: the record is
    the one it was given with the chart, the repository and the values
    map assigned in turn. *)
Lemma InitDefaults_returned_record args chart repo values args' :
  InitDefaults args chart repo values = (args', Returned) →
  ∃ d m,
    mapstructure.NewDecoder {| mapstructure.TagName := "pulumi" |} = inr d ∧
    mapstructure.Decode d values (Some (default ∅ (Values args)))
      = (m, None) ∧
    args' =
      set_Values (go_delete m FieldHelmOptionsInput)
        (set_Repo (Some (default repo (helmv3.Repo (RepositoryOpts args))))
           (set_Chart (if decide (Chart args = "") then chart else Chart args)
              args)).
Proof.
  unfold InitDefaults.
  destruct args as
    [? chart0 ? ? ? ? ? ? ? ? ? ? ? ? ? ? ? ? ? ? ? [? ? ? ? repo0 ?]
     ? ? ? ? ? ? ? ? vals0 ? ? ?];
  simpl.
  destruct (decide (chart0 = "")); destruct repo0; destruct vals0; simpl;
    (destruct (mapstructure.NewDecoder _) as [?|d]; simpl; [done |]);
    (destruct (mapstructure.Decode d _ _) as [m [?|]] eqn:Hd; simpl;
     [done |]);
    intros [= <-]; exists d, m; done.
Qed.

(** What the later statements of [Construct] rely on. *)
Lemma InitDefaults_returned_facts args chart repo values args' :
  InitDefaults args chart repo values = (args', Returned) →
  map_index (Values args') FieldHelmOptionsInput = None ∧
  helmv3.Repo (RepositoryOpts args') ≠ None ∧
  (chart ≠ "" → Chart args' ≠ "").
Proof.
  intros (d & m & _ & _ & ->)%InitDefaults_returned_record. simpl.
  split; [apply map_index_go_delete | split; [done |]].
  intros Hc. by destruct (decide (Chart args = "")).
Qed.

(** With an overlaying decoder, the values map a returning call leaves is
    never nil, and its keys are exactly the keys decoded from the payload
    and the keys the map had, less the reserved key. *)
Theorem InitDefaults_values_keys args chart repo values args' :
  overlays_target P →
  InitDefaults args chart repo values = (args', Returned) →
  ∃ g : gmap string GoValue,
    Values args' = Some g ∧
    dom g = (dom (decoded_payload values) ∪ dom (default ∅ (Values args)))
            ∖ {[ FieldHelmOptionsInput ]}.
Proof.
  intros Hlaw (d & m & Hn & Hd & ->)%InitDefaults_returned_record.
  pose proof (Hlaw _ _ _ _ Hd) as ->. simpl.
  eexists; split; [done |].
  unfold decoded_payload. rewrite Hn.
  by rewrite dom_delete_L, dom_union_L.
Qed.

(** The by-value call, statement by statement. *)
Lemma InitDefaults_steps (args : ReleaseType) chart repo values :
  InitDefaults args chart repo values
  = match mapstructure.NewDecoder {| mapstructure.TagName := "pulumi" |} with
    | inl err =>
        (set_Values (Some (default ∅ (Values args)))
           (set_Repo
              (Some (default repo (helmv3.Repo (RepositoryOpts args))))
              (set_Chart
                 (if decide (Chart args = "") then chart else Chart args)
                 args)),
         Panicked err)
    | inr d =>
        match mapstructure.Decode d values (Some (default ∅ (Values args)))
        with
        | (m, Some err) =>
            (set_Values m
               (set_Repo
                  (Some (default repo (helmv3.Repo (RepositoryOpts args))))
                  (set_Chart
                     (if decide (Chart args = "") then chart else Chart args)
                     args)),
             Panicked err)
        | (m, None) =>
            (set_Values (go_delete m FieldHelmOptionsInput)
               (set_Repo
                  (Some (default repo (helmv3.Repo (RepositoryOpts args))))
                  (set_Chart
                     (if decide (Chart args = "") then chart else Chart args)
                     args)),
             Returned)
        end
    end.
Proof.
  unfold InitDefaults.
  destruct args as
    [? chart0 ? ? ? ? ? ? ? ? ? ? ? ? ? ? ? ? ? ? ? [? ? ? ? repo0 ?]
     ? ? ? ? ? ? ? ? vals0 ? ? ?];
  simpl.
  destruct (decide (chart0 = "")); destruct repo0; destruct vals0; simpl;
    (destruct (mapstructure.NewDecoder _) as [?|d]; simpl; [reflexivity |]);
    (destruct (mapstructure.Decode d _ _) as [m [?|]]; reflexivity).
Qed.

(** With a decoder that overlays its target and whose success does not
    depend on the target, default-merging is idempotent: when a call
    returns, a second call with the same defaults and payload on the
    record it left returns too, and leaves that record as it is. *)
Theorem InitDefaults_idempotent args chart repo values args1 :
  overlays_target P →
  success_ignores_target P →
  InitDefaults args chart repo values = (args1, Returned) →
  InitDefaults args1 chart repo values = (args1, Returned).
Proof.
  intros Hlaw Hacc (d & m & Hn & Hd & ->)%InitDefaults_returned_record.
  pose proof (Hlaw _ _ _ _ Hd) as ->.
  rewrite go_delete_Some.
  set (dp := default ∅ (mapstructure.Decode d values (Some ∅)).1) in *.
  set (m0 := default ∅ (Values args)) in *.
  destruct (Hacc _ _ _ (delete FieldHelmOptionsInput (dp ∪ m0)) _ Hd)
    as [m2 Hd2].
  pose proof (Hlaw _ _ _ _ Hd2) as Hm2. fold dp in Hm2. subst m2.
  assert (Hmap : delete FieldHelmOptionsInput
                   (dp ∪ delete FieldHelmOptionsInput (dp ∪ m0))
                 = delete FieldHelmOptionsInput (dp ∪ m0)).
  { apply map_eq. intros k.
    destruct (decide (k = FieldHelmOptionsInput)) as [->|Hk].
    - by rewrite !lookup_delete_eq.
    - rewrite !lookup_delete_ne by done.
      destruct (dp !! k) as [v|] eqn:Hp.
      + by rewrite !(lookup_union_Some_l _ _ _ v).
      + rewrite !lookup_union_r by done.
        rewrite lookup_delete_ne by done. by rewrite lookup_union_r. }
  assert (Hchart :
    (if decide ((if decide (Chart args = "") then chart else Chart args) = "")
     then chart
     else if decide (Chart args = "") then chart else Chart args)
    = (if decide (Chart args = "") then chart else Chart args)).
  { destruct (decide (Chart args = "")); by destruct (decide _). }
  rewrite InitDefaults_steps, Hn.
  rewrite Values_set_Values, Chart_after_sets, Repo_after_sets.
  change (default ∅ (Some (delete FieldHelmOptionsInput (dp ∪ m0))))
    with (delete FieldHelmOptionsInput (dp ∪ m0)).
  rewrite Hd2, go_delete_Some, Hmap, Hchart.
  f_equal; apply set_fields_fixed.
Qed.

(** When decoding fails, the call stops before its last statement: the
    values map is left exactly as the decoder left it, the reserved key
    not removed, while the chart and the repository have their defaults. *)
Theorem InitDefaults_panic_leaves_map args chart repo values d m err :
  mapstructure.NewDecoder {| mapstructure.TagName := "pulumi" |} = inr d →
  mapstructure.Decode d values (Some (default ∅ (Values args)))
    = (m, Some err) →
  InitDefaults args chart repo values
  = (set_Values m
       (set_Repo (Some (default repo (helmv3.Repo (RepositoryOpts args))))
          (set_Chart (if decide (Chart args = "") then chart else Chart args)
             args)),
     Panicked err).
Proof.
  intros Hn Hd. unfold InitDefaults.
  destruct args as
    [? chart0 ? ? ? ? ? ? ? ? ? ? ? ? ? ? ? ? ? ? ? [? ? ? ? repo0 ?]
     ? ? ? ? ? ? ? ? vals0 ? ? ?];
  simpl in *.
  destruct (decide (chart0 = "")); destruct repo0; destruct vals0; simpl in *;
    rewrite Hn; simpl; rewrite Hd; done.
Qed.

End InitDefaultsRecord.

(** ** Runs of [Construct] *)

Section ConstructRuns.

Context {ConstructInputs ResourceOption Release ReleaseStatusOutput
         ConstructResult : Type}.
Context (Release_Status : Release → ReleaseStatusOutput).
Context {C A : Type} {chartC : ChartComponent ReleaseStatusOutput C}
        {argsA : ChartArgs A} {libA : mapstructure.Library A}.
Context {W : Type}
        (h : ∀ X, Call (ConstructInputs := ConstructInputs)
                       (ResourceOption := ResourceOption) (Release := Release)
                       (ConstructResult := ConstructResult) (C := C) (A := A) X
                  → W → W * X).
Implicit Types (w : W) (c : C) (typ name : string) (args : A)
               (inputs : ConstructInputs) (opts : ResourceOption).

(** Against every engine, the calls of a run are an initial part of the
    five calls in source order: nothing is called twice or out of turn,
    and the parent is registered before the release is asked for. *)
Theorem Construct_calls_in_order w c typ name args inputs opts :
  call_names
    (run h (Construct Release_Status c typ name args inputs opts) w).1.2
    `prefix_of` Construct_call_order.
Proof.
  unfold Construct.
  destruct (decide (typ ≠ Type_ c)); [by eexists |].
  cbn [run].
  destruct (h _ (CopyTo inputs args) w) as [w1 [args1 [err|]]]; [by eexists |].
  cbn [run].
  destruct (h _ (RegisterComponentResource typ name c opts) w1) as [w2 [err|]];
    [by eexists |].
  destruct (R args1) as [r|];
    (destruct (InitDefaults _ _ _ _) as [rel [|err]]; [| by eexists]);
    cbn [run];
    (destruct (h _ (NewRelease _ _ _) w2) as [w3 [err|rl]]; [by eexists |]);
    cbn [run];
    (destruct (h _ (RegisterResourceOutputs _ _) w3) as [w4 [err|]];
       [by eexists |]);
    cbn [run];
    (destruct (h _ (NewConstructResult _) w4) as [w5 [err|res]]; by eexists).
Qed.

(** When [Construct] returns a result, the token matched and the run was
    exactly this one: the copy of the inputs onto the args succeeded and
    left [args1]; the parent was registered under the given token, name
    and options; [InitDefaults] returned [relArgs] on the release options
    [args1] holds (the zero record, stored into the args, when it holds
    none), with the component's default chart and repository and the args
    as payload; the release was asked for under [name-helm] with the
    conversion of [relArgs] and the parent as it was, and answered [rel];
    the outputs and the result were taken from the parent once
    [SetOutputs] gave it the status of [rel]; the result is the one
    [NewConstructResult] answered, and the args end holding [relArgs]. *)
Theorem Construct_return_calls w c typ name args inputs opts res :
  (run h (Construct Release_Status c typ name args inputs opts) w).2.2
    = Return res →
  typ = Type_ c ∧
  ∃ (w1 w2 w3 w4 w5 : W) (args1 : A) (relArgs : ReleaseType) (rel : Release),
    h _ (CopyTo inputs args) w = (w1, (args1, None)) ∧
    h _ (RegisterComponentResource typ name c opts) w1 = (w2, None) ∧
    InitDefaults (default zeroReleaseType (R args1))
      (DefaultChartName c) (DefaultRepoURL c)
      (match R args1 with
       | None => set_R args1 zeroReleaseType
       | Some _ => args1
       end)
    = (relArgs, Returned) ∧
    h _ (NewRelease (name +:+ "-helm") (To relArgs) c) w2 = (w3, inr rel) ∧
    h _ (RegisterResourceOutputs (SetOutputs c (Release_Status rel))
           {[ FieldHelmStatusOutput := rel ]}) w3 = (w4, None) ∧
    h _ (NewConstructResult (SetOutputs c (Release_Status rel))) w4
    = (w5, inr res) ∧
    run h (Construct Release_Status c typ name args inputs opts) w
    = (w5,
       [ existT _ (CopyTo inputs args);
         existT _ (RegisterComponentResource typ name c opts);
         existT _ (NewRelease (name +:+ "-helm") (To relArgs) c);
         existT _ (RegisterResourceOutputs
                     (SetOutputs c (Release_Status rel))
                     {[ FieldHelmStatusOutput := rel ]});
         existT _ (NewConstructResult (SetOutputs c (Release_Status rel))) ],
       (SetOutputs c (Release_Status rel),
        set_R
          (match R args1 with
           | None => set_R args1 zeroReleaseType
           | Some _ => args1
           end) relArgs,
        Return res)).
Proof.
  unfold Construct.
  destruct (decide (typ ≠ Type_ c)) as [|Heq%dec_stable]; [done |].
  cbn [run].
  destruct (h _ (CopyTo inputs args) w) as [w1 [args1 [err|]]] eqn:Hcopy;
    [done |].
  cbn [run].
  destruct (h _ (RegisterComponentResource typ name c opts) w1)
    as [w2 [err|]] eqn:Hreg; [done |].
  destruct (R args1) as [r|] eqn:HR;
    (destruct (InitDefaults _ _ _ _) as [relArgs [|err]] eqn:Hinit;
       [| done]);
    cbn [run];
    (destruct (h _ (NewRelease _ _ _) w2) as [w3 [err|rel]] eqn:Hrel;
       [done |]);
    cbn [run];
    (destruct (h _ (RegisterResourceOutputs _ _) w3) as [w4 [err|]] eqn:Hout;
       [done |]);
    cbn [run];
    (destruct (h _ (NewConstructResult _) w4) as [w5 [err|res']] eqn:Hres;
       [done |]);
    intros [= ->]; (split; [done |]);
    exists w1, w2, w3, w4, w5, args1, relArgs, rel; rewrite HR; done.
Qed.

(** Against every engine, whatever release a run asks for is asked for
    under [name-helm], as a child of the component as it was passed in,
    and with the conversion of a record that does not hold the reserved
    key in its values, has a repository URL, and has a chart whenever the
    component's default chart name is not empty. *)
Theorem Construct_release_args w c typ name args inputs opts :
  Forall
    (λ '(n, releaseArgs, parent),
       n = name +:+ "-helm" ∧ parent = c ∧
       ∃ relArgs : ReleaseType,
         releaseArgs = To relArgs ∧
         map_index (Values relArgs) FieldHelmOptionsInput = None ∧
         helmv3.Repo (RepositoryOpts relArgs) ≠ None ∧
         (DefaultChartName c ≠ "" → Chart relArgs ≠ ""))
    (release_calls
       (run h (Construct Release_Status c typ name args inputs opts) w).1.2).
Proof.
  unfold Construct.
  destruct (decide (typ ≠ Type_ c)); [by constructor |].
  cbn [run].
  destruct (h _ (CopyTo inputs args) w) as [w1 [args1 [err|]]];
    [by constructor |].
  cbn [run].
  destruct (h _ (RegisterComponentResource typ name c opts) w1) as [w2 [err|]];
    [by constructor |].
  destruct (R args1) as [r|];
    (destruct (InitDefaults _ _ _ _) as [rel [|err]] eqn:Hinit;
       [| by constructor]);
    apply InitDefaults_returned_facts in Hinit as (Hkey & Hrepo & Hchart);
    cbn [run];
    (destruct (h _ (NewRelease _ _ _) w2) as [w3 [err|rl]];
       [by constructor; [eauto 10 | constructor] |]);
    cbn [run];
    (destruct (h _ (RegisterResourceOutputs _ _) w3) as [w4 [err|]];
       [by constructor; [eauto 10 | constructor] |]);
    cbn [run];
    (destruct (h _ (NewConstructResult _) w4) as [w5 [err|res]];
       by constructor; [eauto 10 | constructor]).
Qed.

(** When copying the inputs fails, [Construct] fails with that error
    wrapped under [setting args], keeps the args as the copy left them,
    and makes no other call: nothing is registered. *)
Theorem Construct_copy_failure w c typ name args inputs opts w1 args1 err :
  typ = Type_ c →
  h _ (CopyTo inputs args) w = (w1, (args1, Some err)) →
  run h (Construct Release_Status c typ name args inputs opts) w
  = (w1, [existT _ (CopyTo inputs args)],
     (c, args1, Fail ("setting args: " +:+ err))).
Proof.
  intros Heq Hcopy. unfold Construct.
  destruct (decide (typ ≠ Type_ c)); [done |].
  cbn [run]. by rewrite Hcopy.
Qed.

(** When registering the parent component fails, [Construct] fails with
    the engine's error as it is, after two calls: no release is asked for
    and the args are as the copy left them, without any default. *)
Theorem Construct_register_failure w c typ name args inputs opts
    w1 args1 w2 err :
  typ = Type_ c →
  h _ (CopyTo inputs args) w = (w1, (args1, None)) →
  h _ (RegisterComponentResource typ name c opts) w1 = (w2, Some err) →
  run h (Construct Release_Status c typ name args inputs opts) w
  = (w2,
     [existT _ (CopyTo inputs args);
      existT _ (RegisterComponentResource typ name c opts)],
     (c, args1, Fail err)).
Proof.
  intros Heq Hcopy Hreg. unfold Construct.
  destruct (decide (typ ≠ Type_ c)); [done |].
  cbn [run]. rewrite Hcopy. cbn [run]. by rewrite Hreg.
Qed.

(** When default-merging panics, [Construct] panics with the same error
    and the parent component is already registered: exactly the copy and
    the registration were called, no release was asked for, and the
    component is as it was passed in. *)
Theorem Construct_panic_calls w c typ name args inputs opts err :
  (run h (Construct Release_Status c typ name args inputs opts) w).2.2
    = Panic err →
  call_names
    (run h (Construct Release_Status c typ name args inputs opts) w).1.2
    = ["CopyTo"; "RegisterComponentResource"] ∧
  (run h (Construct Release_Status c typ name args inputs opts) w).2.1.1 = c.
Proof.
  unfold Construct.
  destruct (decide (typ ≠ Type_ c)); [done |].
  cbn [run].
  destruct (h _ (CopyTo inputs args) w) as [w1 [args1 [e|]]]; [done |].
  cbn [run].
  destruct (h _ (RegisterComponentResource typ name c opts) w1) as [w2 [e|]];
    [done |].
  destruct (R args1) as [r|];
    (destruct (InitDefaults _ _ _ _) as [rel [|e]]; [| done]);
    cbn [run];
    (destruct (h _ (NewRelease _ _ _) w2) as [w3 [e|rl]]; [done |]);
    cbn [run];
    (destruct (h _ (RegisterResourceOutputs _ _) w3) as [w4 [e|]]; [done |]);
    cbn [run];
    (destruct (h _ (NewConstructResult _) w4) as [w5 [e|res]]; done).
Qed.

(** The component is only changed on the way to registering its outputs:
    in a run that never calls [RegisterResourceOutputs] (a mismatch, a
    failed copy, registration or release, a panic) it ends as it was
    passed in, no [SetOutputs] applied. *)
Theorem Construct_component_untouched w c typ name args inputs opts :
  "RegisterResourceOutputs" ∉
    call_names
      (run h (Construct Release_Status c typ name args inputs opts) w).1.2 →
  (run h (Construct Release_Status c typ name args inputs opts) w).2.1.1 = c.
Proof.
  unfold Construct.
  destruct (decide (typ ≠ Type_ c)); [done |].
  cbn [run].
  destruct (h _ (CopyTo inputs args) w) as [w1 [args1 [e|]]]; [done |].
  cbn [run].
  destruct (h _ (RegisterComponentResource typ name c opts) w1) as [w2 [e|]];
    [done |].
  destruct (R args1) as [r|];
    (destruct (InitDefaults _ _ _ _) as [rel [|e]]; [| done]);
    cbn [run];
    (destruct (h _ (NewRelease _ _ _) w2) as [w3 [e|rl]]; [done |]);
    cbn [run];
    (destruct (h _ (RegisterResourceOutputs _ _) w3) as [w4 [e|]];
       [| destruct (run h _ w4) as [[? ?] ?] ]);
    intros Hnot; exfalso; apply Hnot; cbn;
    do 3 apply list_elem_of_further; apply list_elem_of_here.
Qed.

End ConstructRuns.

(** ** What the conversion keeps *)

Lemma toBoolPtr_inj (p q : option bool) : toBoolPtr p = toBoolPtr q → p = q.
Proof. destruct p, q; simpl; congruence. Qed.

Lemma toIntPtr_inj (p q : option Z) : toIntPtr p = toIntPtr q → p = q.
Proof. destruct p, q; simpl; congruence. Qed.

Lemma toStringPtr_inj (p q : option string) :
  toStringPtr p = toStringPtr q → p = q.
Proof. destruct p, q; simpl; congruence. Qed.

(** Two records convert to the same [ReleaseArgs] exactly when they have
    the same chart, agree on every optional scalar field, and their
    manifest, values and resource names convert to the same maps. The
    status and the asset list are not among the conditions: [To] carries
    nothing of them over, and it carries every scalar over without loss. *)
Theorem To_eq_iff (a1 a2 : ReleaseType) :
  To a1 = To a2 ↔
  Chart a1 = Chart a2 ∧
  Forall (λ f, same_field f a1 a2) optional_scalar_fields ∧
  pulumi.ToMap (Manifest a1) = pulumi.ToMap (Manifest a2) ∧
  pulumi.ToStringArrayMap (ResourceNames a1)
    = pulumi.ToStringArrayMap (ResourceNames a2) ∧
  pulumi.ToMap (Values a1) = pulumi.ToMap (Values a2).
Proof.
  split.
  - intros Heq.
    assert (Hout : ∀ f, same_output f (To a1) (To a2))
      by (intros []; simpl; by rewrite Heq).
    split; [| split; [| split; [| split]]].
    + by injection (f_equal helmv3.Args.Chart Heq).
    + unfold optional_scalar_fields.
      repeat (apply Forall_cons; split;
                [ match goal with
                  | |- same_field ?f _ _ =>
                      pose proof (Hout f) as Hf; simpl in Hf |- *;
                      first [ by apply toBoolPtr_inj
                            | by apply toIntPtr_inj
                            | by apply toStringPtr_inj ]
                  end | ]).
      apply Forall_nil_2.
    + exact (f_equal helmv3.Args.Manifest Heq).
    + exact (f_equal helmv3.Args.ResourceNames Heq).
    + exact (f_equal helmv3.Args.Values Heq).
  - intros (Hchart & Hfields & Hman & Hnames & Hvals).
    unfold optional_scalar_fields in Hfields.
    repeat match goal with
           | H : Forall _ (_ :: _) |- _ =>
               apply Forall_cons in H as [? H]
           end.
    clear Hfields. simpl in *. unfold To.
    destruct a1 as
      [? ? ? ? ? ? ? ? ? ? ? ? ? ? ? ? ? ? ? ? ? [? ? ? ? ? ?]
       ? ? ? ? ? ? ? ? ? ? ? ?],
      a2 as
      [? ? ? ? ? ? ? ? ? ? ? ? ? ? ? ? ? ? ? ? ? [? ? ? ? ? ?]
       ? ? ? ? ? ? ? ? ? ? ? ?];
      simpl in *; subst.
    by rewrite Hman, Hnames, Hvals.
Qed.

(** ** More instances on concrete inputs *)

(** On the crowded map and the sample payload the keys left are those of
    both, less the reserved key. *)
Lemma InitDefaults_values_keys_witness :
  ∃ g : gmap string GoValue,
    Values (InitDefaults (set_Values (Some nginx.crowded) zeroReleaseType)
              "nginx" "https://charts.example.com" nginx.payload).1 = Some g ∧
    dom g = (dom (decoded_payload nginx.payload)
             ∪ dom (default ∅ (Values
                      (set_Values (Some nginx.crowded) zeroReleaseType))))
            ∖ {[ FieldHelmOptionsInput ]}.
Proof.
  apply (InitDefaults_values_keys
           (set_Values (Some nginx.crowded) zeroReleaseType)
           "nginx" "https://charts.example.com" nginx.payload _
           structdecoder_overlays).
  vm_compute. reflexivity.
Defined.

(** Default-merging the sample twice. *)
Lemma InitDefaults_idempotent_witness :
  InitDefaults
    (InitDefaults (set_Values (Some nginx.crowded) zeroReleaseType)
       "nginx" "https://charts.example.com" nginx.payload).1
    "nginx" "https://charts.example.com" nginx.payload
  = ((InitDefaults (set_Values (Some nginx.crowded) zeroReleaseType)
        "nginx" "https://charts.example.com" nginx.payload).1,
     Returned).
Proof.
  apply (InitDefaults_idempotent
           (set_Values (Some nginx.crowded) zeroReleaseType)
           "nginx" "https://charts.example.com" nginx.payload _
           structdecoder_overlays structdecoder_success_ignores_target).
  vm_compute. reflexivity.
Defined.

(** An integer payload on the crowded map: the call panics and the
    reserved key is still there. *)
Lemma InitDefaults_panic_leaves_map_witness :
  map_index
    (Values (InitDefaults (set_Values (Some nginx.crowded) zeroReleaseType)
               "nginx" "https://charts.example.com" (structdecoder.Int 3)).1)
    FieldHelmOptionsInput = Some (GoString "stale").
Proof.
  rewrite (@InitDefaults_panic_leaves_map _ structdecoder.library
             (set_Values (Some nginx.crowded) zeroReleaseType)
             "nginx" "https://charts.example.com" (structdecoder.Int 3)
             {| mapstructure.TagName := "pulumi" |} (Some nginx.crowded)
             "'' expected a map, got 'int'" eq_refl eq_refl).
  reflexivity.
Defined.

(** The sample chart constructed against the engine that always
    succeeds: the run returns, so the token is the chart's own. *)
Lemma Construct_return_calls_witness :
  (run nginx.engine
     (Construct id (nginx.mkComponent None) nginx.token "web"
        (nginx.mkArgs None None) ∅ tt) []).2.2
  = Return (nginx.mkComponent (Some (helmv3.mkReleaseStatus ∅))) ∧
  nginx.token = Type_ (nginx.mkComponent None) ∧
  ∃ relArgs : ReleaseType,
    InitDefaults zeroReleaseType "nginx" "https://charts.example.com"
      (nginx.mkArgs None (Some zeroReleaseType))
    = (relArgs, Returned) ∧
    release_calls
      (run nginx.engine
         (Construct id (nginx.mkComponent None) nginx.token "web"
            (nginx.mkArgs None None) ∅ tt) []).1.2
    = [("web-helm", To relArgs, nginx.mkComponent None)].
Proof.
  assert (Hret :
    (run nginx.engine
       (Construct id (nginx.mkComponent None) nginx.token "web"
          (nginx.mkArgs None None) ∅ tt) []).2.2
    = Return (nginx.mkComponent (Some (helmv3.mkReleaseStatus ∅))))
    by (vm_compute; reflexivity).
  split; [exact Hret |].
  destruct (Construct_return_calls (chartC := nginx.chart) id nginx.engine []
              (nginx.mkComponent None) nginx.token "web"
              (nginx.mkArgs None None) ∅ tt _ Hret)
    as (Htoken & w1 & w2 & w3 & w4 & w5 & args1 & relArgs & rel
        & Hcopy & Hreg & Hinit & Hrel & Hout & Hres & Hrun).
  split; [exact Htoken |].
  injection Hcopy as <- <-.
  exists relArgs. split; [exact Hinit |].
  rewrite Hrun. reflexivity.
Defined.

(** The sample chart against an engine whose copy of the inputs fails. *)
Lemma Construct_copy_failure_witness :
  run (scenarios.failing "CopyTo")
    (Construct id (nginx.mkComponent None) nginx.token "web"
       (nginx.mkArgs None None) ∅ tt) []
  = ([], [existT _ (CopyTo ∅ (nginx.mkArgs None None))],
     (nginx.mkComponent None, nginx.mkArgs None None,
      Fail "setting args: boom")).
Proof.
  exact (Construct_copy_failure (chartC := nginx.chart) id
           (scenarios.failing "CopyTo") [] (nginx.mkComponent None)
           nginx.token "web" (nginx.mkArgs None None) ∅ tt
           [] (nginx.mkArgs None None) "boom" eq_refl eq_refl).
Defined.

(** The sample chart against an engine that refuses the parent. *)
Lemma Construct_register_failure_witness :
  run (scenarios.failing "RegisterComponentResource")
    (Construct id (nginx.mkComponent None) nginx.token "web"
       (nginx.mkArgs None None) ∅ tt) []
  = ([],
     [existT _ (CopyTo ∅ (nginx.mkArgs None None));
      existT _ (RegisterComponentResource nginx.token "web"
                  (nginx.mkComponent None) tt)],
     (nginx.mkComponent None, nginx.mkArgs None None, Fail "boom")).
Proof.
  exact (Construct_register_failure (chartC := nginx.chart) id
           (scenarios.failing "RegisterComponentResource") []
           (nginx.mkComponent None) nginx.token "web"
           (nginx.mkArgs None None) ∅ tt
           [] (nginx.mkArgs None None) [] "boom" eq_refl eq_refl eq_refl).
Defined.

(** The sample chart with a decoder that refuses its args. *)
Lemma Construct_panic_calls_witness :
  call_names
    (run nginx.engine
       (Construct (H := scenarios.refusing) id (nginx.mkComponent None)
          nginx.token "web" (nginx.mkArgs None None) ∅ tt) []).1.2
    = ["CopyTo"; "RegisterComponentResource"] ∧
  (run nginx.engine
     (Construct (H := scenarios.refusing) id (nginx.mkComponent None)
        nginx.token "web" (nginx.mkArgs None None) ∅ tt) []).2.1.1
    = nginx.mkComponent None.
Proof.
  apply (Construct_panic_calls (chartC := nginx.chart)
           (libA := scenarios.refusing) id nginx.engine []
           (nginx.mkComponent None) nginx.token "web"
           (nginx.mkArgs None None) ∅ tt "boom").
  vm_compute. reflexivity.
Defined.

(** The sample chart against an engine that refuses the release. *)
Lemma Construct_component_untouched_witness :
  (run (scenarios.failing "NewRelease")
     (Construct id (nginx.mkComponent None) nginx.token "web"
        (nginx.mkArgs None None) ∅ tt) []).2.1.1
    = nginx.mkComponent None.
Proof.
  apply (Construct_component_untouched (chartC := nginx.chart) id
           (scenarios.failing "NewRelease") [] (nginx.mkComponent None)
           nginx.token "web" (nginx.mkArgs None None) ∅ tt).
  apply (bool_decide_unpack _). vm_compute. exact I.
Defined.

(** ** Default-merging on shared map objects *)

Section InitDefaultsShared.

Context {P : Type} {libP : mapstructure.Library P}.
Implicit Types (s : Shared) (chart repo : string) (values : P).

Lemma entries_insert_ne (objs : gmap positive (gmap string GoValue))
    (l : positive) (g : gmap string GoValue) (field : option positive) :
  field ≠ Some l → entries (<[l := g]> objs) field = entries objs field.
Proof.
  intros Hne. destruct field as [l'|]; [| done]. simpl.
  rewrite lookup_insert_ne; [done | congruence].
Qed.

Lemma fresh_not_Manifest_at s :
  Manifest_at s
  ≠ Some (fresh (dom (objects s) ∪ from_option singleton ∅ (Manifest_at s))).
Proof.
  intros Heq.
  pose proof (is_fresh
    (dom (objects s) ∪ from_option singleton ∅ (Manifest_at s))) as Hfresh.
  apply Hfresh. rewrite Heq at 2. simpl. set_solver.
Qed.

Lemma assign_spares (f : ReleaseType → ReleaseType) :
  spares_Manifest (assign f).
Proof. by intros s. Qed.

Lemma alloc_Values_spares (g : gmap string GoValue) :
  spares_Manifest (alloc_Values g).
Proof.
  intros s. split; [done |]. intros _.
  pose proof (fresh_not_Manifest_at s) as Hne. split.
  - right. exact Hne.
  - by apply entries_insert_ne.
Qed.

Lemma store_Values_spares (m : ValuesMap) : spares_Manifest (store_Values m).
Proof.
  intros s. unfold store_Values.
  destruct m as [g|], (Values_at s) as [l|] eqn:Hl.
  - split; [done |]. intros Hapart. simpl. split.
    + by rewrite <- Hl.
    + apply entries_insert_ne. destruct Hapart as [->|?]; congruence.
  - apply alloc_Values_spares.
  - split; [done |]. intros [Hnil|Hne]; simpl; (split; [| done]).
    + by left.
    + destruct (Manifest_at s); [by right | by left].
  - split; [done |]. intros [Hnil|Hne]; simpl; (split; [| done]).
    + by left.
    + destruct (Manifest_at s); [by right | by left].
Qed.

Lemma delete_Values_spares (k : string) : spares_Manifest (delete_Values k).
Proof.
  intros s. unfold delete_Values.
  destruct (Values_at s) as [l|] eqn:Hl; [| done].
  split; [done |]. intros Hapart. simpl. split.
  - by rewrite <- Hl.
  - apply entries_insert_ne. destruct Hapart as [->|?]; congruence.
Qed.

Lemma spares_compose (f g : Shared → Shared) :
  spares_Manifest f → spares_Manifest g → spares_Manifest (g ∘ f).
Proof.
  intros Hf Hg s. destruct (Hf s) as [Hf1 Hf2], (Hg (f s)) as [Hg1 Hg2].
  simpl. split; [congruence |].
  intros Hs. destruct (Hf2 Hs) as [Hfa Hfe], (Hg2 Hfa) as [Hga Hge].
  split; [done |]. rewrite <- Hfe. by rewrite <- Hf1.
Qed.

Lemma id_spares : spares_Manifest id.
Proof. by intros s. Qed.

(** [InitDefaults] as the composition of its statements. *)
Lemma InitDefaults_shared_spares chart repo values :
  spares_Manifest (λ s, (InitDefaults_shared s chart repo values).1).
Proof.
  intros s. unfold InitDefaults_shared.
  set (s1 := if decide (Chart (others s) = "")
             then assign (set_Chart chart) s else s).
  set (s2 := match helmv3.Repo (RepositoryOpts (others s1)) with
             | None => assign (set_Repo (Some repo)) s1
             | Some _ => s1
             end).
  set (s3 := match Values_at s2 with
             | None => make_Values s2
             | Some _ => s2
             end).
  assert (H1 : Manifest_at s1 = Manifest_at s ∧
               (apart s → apart s1 ∧
                entries (objects s1) (Manifest_at s)
                = entries (objects s) (Manifest_at s))).
  { subst s1. destruct (decide _); [apply assign_spares | apply id_spares]. }
  assert (H2 : Manifest_at s2 = Manifest_at s1 ∧
               (apart s1 → apart s2 ∧
                entries (objects s2) (Manifest_at s1)
                = entries (objects s1) (Manifest_at s1))).
  { subst s2. destruct (helmv3.Repo _);
      [apply id_spares | apply assign_spares]. }
  assert (H3 : Manifest_at s3 = Manifest_at s2 ∧
               (apart s2 → apart s3 ∧
                entries (objects s3) (Manifest_at s2)
                = entries (objects s2) (Manifest_at s2))).
  { subst s3. destruct (Values_at s2);
      [apply id_spares | apply alloc_Values_spares]. }
  assert (H03 : Manifest_at s3 = Manifest_at s ∧
                (apart s → apart s3 ∧
                 entries (objects s3) (Manifest_at s)
                 = entries (objects s) (Manifest_at s))).
  { destruct H1 as [E1 F1], H2 as [E2 F2], H3 as [E3 F3].
    split; [congruence |]. intros Hs.
    destruct (F1 Hs) as [A1 G1], (F2 A1) as [A2 G2], (F3 A2) as [A3 G3].
    split; [done |]. rewrite <- G1, <- E1, <- G2, <- E2. exact G3. }
  clearbody s3. clear s1 s2 H1 H2 H3.
  destruct (mapstructure.NewDecoder _) as [err|d]; [exact H03 |].
  destruct (mapstructure.Decode d values _) as [m err].
  destruct H03 as [E3 F3].
  destruct (store_Values_spares m s3) as [E4 F4].
  destruct err as [err|]; simpl.
  - split; [congruence |]. intros Hs.
    destruct (F3 Hs) as [A3 G3], (F4 A3) as [A4 G4].
    split; [done |]. rewrite <- G3, <- E3. exact G4.
  - destruct (delete_Values_spares FieldHelmOptionsInput (store_Values m s3))
      as [E5 F5].
    split; [congruence |]. intros Hs.
    destruct (F3 Hs) as [A3 G3], (F4 A3) as [A4 G4], (F5 A4) as [A5 G5].
    split; [done |]. rewrite <- G3, <- E3, <- G4, <- E4. exact G5.
Qed.

(** The fields that are not the two maps end as the value-level steps
    leave them: the chart and the repository assigned, the rest alone. *)
Lemma InitDefaults_shared_others s chart repo values :
  others (InitDefaults_shared s chart repo values).1
  = set_Repo (Some (default repo (helmv3.Repo (RepositoryOpts (others s)))))
      (set_Chart
         (if decide (Chart (others s) = "") then chart else Chart (others s))
         (others s)).
Proof.
  unfold InitDefaults_shared.
  set (s1 := if decide (Chart (others s) = "")
             then assign (set_Chart chart) s else s).
  set (s2 := match helmv3.Repo (RepositoryOpts (others s1)) with
             | None => assign (set_Repo (Some repo)) s1
             | Some _ => s1
             end).
  set (s3 := match Values_at s2 with
             | None => make_Values s2
             | Some _ => s2
             end).
  assert (H3 : others s3 = others s2)
    by (subst s3; by destruct (Values_at s2)).
  assert (Hend : ∀ m, others (store_Values m s3) = others s3).
  { intros m. unfold store_Values.
    by destruct m, (Values_at s3). }
  assert (Hdel : ∀ k t, others (delete_Values k t) = others t).
  { intros k t. unfold delete_Values. by destruct (Values_at t). }
  assert (Hgoal : others s2
    = set_Repo (Some (default repo (helmv3.Repo (RepositoryOpts (others s)))))
        (set_Chart
           (if decide (Chart (others s) = "") then chart
            else Chart (others s))
           (others s))).
  { subst s2 s1. destruct s as [objs lm lv o]. simpl.
    destruct o as
      [? chart0 ? ? ? ? ? ? ? ? ? ? ? ? ? ? ? ? ? ? ? [? ? ? ? repo0 ?]
       ? ? ? ? ? ? ? ? vals0 ? ? ?].
    simpl. destruct (decide (chart0 = "")); destruct repo0; reflexivity. }
  rewrite <- H3 in Hgoal. clearbody s3. clear s1 s2 H3.
  destruct (mapstructure.NewDecoder _) as [err|d]; [exact Hgoal |].
  destruct (mapstructure.Decode d values _) as [m [err|]]; simpl.
  - by rewrite Hend.
  - by rewrite Hdel, Hend.
Qed.

Lemma entries_store_Values (m : ValuesMap) s :
  entries (objects (store_Values m s)) (Values_at (store_Values m s)) = m.
Proof.
  unfold store_Values. destruct m as [g|], (Values_at s) as [l|]; simpl;
    by rewrite ?lookup_insert_eq.
Qed.

Lemma entries_delete_Values (k : string) s :
  entries (objects (delete_Values k s)) (Values_at (delete_Values k s))
  = go_delete (entries (objects s) (Values_at s)) k.
Proof.
  unfold delete_Values. destruct (Values_at s) as [l|] eqn:Hl; simpl.
  - by rewrite lookup_insert_eq.
  - by rewrite Hl.
Qed.

(** How the call ends and what the values field shows afterwards, in
    terms of what it showed before. *)
Lemma InitDefaults_shared_values s chart repo values :
  let before := Some (default ∅ (entries (objects s) (Values_at s))) in
  let after := InitDefaults_shared s chart repo values in
  (after.2, entries (objects after.1) (Values_at after.1))
  = match mapstructure.NewDecoder {| mapstructure.TagName := "pulumi" |} with
    | inl err => (Panicked err, before)
    | inr d =>
        match mapstructure.Decode d values before with
        | (m, Some err) => (Panicked err, m)
        | (m, None) => (Returned, go_delete m FieldHelmOptionsInput)
        end
    end.
Proof.
  simpl. unfold InitDefaults_shared.
  set (s1 := if decide (Chart (others s) = "")
             then assign (set_Chart chart) s else s).
  set (s2 := match helmv3.Repo (RepositoryOpts (others s1)) with
             | None => assign (set_Repo (Some repo)) s1
             | Some _ => s1
             end).
  set (s3 := match Values_at s2 with
             | None => make_Values s2
             | Some _ => s2
             end).
  assert (H2 : entries (objects s2) (Values_at s2)
               = entries (objects s) (Values_at s)).
  { subst s2 s1.
    destruct (decide _); simpl; by destruct (helmv3.Repo _). }
  assert (H3 : entries (objects s3) (Values_at s3)
               = Some (default ∅ (entries (objects s) (Values_at s)))).
  { rewrite <- H2. subst s3.
    destruct (Values_at s2) as [l|] eqn:Hl; simpl; rewrite ?Hl; simpl.
    - done.
    - by rewrite lookup_insert_eq. }
  clearbody s3. clear s1 s2 H2. rewrite H3.
  destruct (mapstructure.NewDecoder _) as [err|d]; simpl; [by rewrite H3 |].
  destruct (mapstructure.Decode d values _) as [m [err|]]; simpl.
  - by rewrite entries_store_Values.
  - by rewrite entries_delete_Values, entries_store_Values.
Qed.

(** C10, as amended: [InitDefaults] assigns the chart, the repository URL
    and the values field, and writes into the map object the values field
    holds, and into nothing else. Every other field shows after the call
    what it showed before, however the call ends; the manifest field
    holds the same map object as before, and shows the same entries
    whenever it is nil or holds another object than the values field. *)
Theorem InitDefaults_shared_frame s chart repo values :
  let s' := (InitDefaults_shared s chart repo values).1 in
  Atomic (contents s') = Atomic (contents s) ∧
  CleanupOnFail (contents s') = CleanupOnFail (contents s) ∧
  CreateNamespace (contents s') = CreateNamespace (contents s) ∧
  DependencyUpdate (contents s') = DependencyUpdate (contents s) ∧
  Description (contents s') = Description (contents s) ∧
  Devel (contents s') = Devel (contents s) ∧
  DisableCRDHooks (contents s') = DisableCRDHooks (contents s) ∧
  DisableOpenapiValidation (contents s')
    = DisableOpenapiValidation (contents s) ∧
  DisableWebhooks (contents s') = DisableWebhooks (contents s) ∧
  ForceUpdate (contents s') = ForceUpdate (contents s) ∧
  Keyring (contents s') = Keyring (contents s) ∧
  Lint (contents s') = Lint (contents s) ∧
  MaxHistory (contents s') = MaxHistory (contents s) ∧
  Name (contents s') = Name (contents s) ∧
  Namespace (contents s') = Namespace (contents s) ∧
  Postrender (contents s') = Postrender (contents s) ∧
  RecreatePods (contents s') = RecreatePods (contents s) ∧
  RenderSubchartNotes (contents s') = RenderSubchartNotes (contents s) ∧
  Replace (contents s') = Replace (contents s) ∧
  helmv3.CaFile (RepositoryOpts (contents s'))
    = helmv3.CaFile (RepositoryOpts (contents s)) ∧
  helmv3.CertFile (RepositoryOpts (contents s'))
    = helmv3.CertFile (RepositoryOpts (contents s)) ∧
  helmv3.KeyFile (RepositoryOpts (contents s'))
    = helmv3.KeyFile (RepositoryOpts (contents s)) ∧
  helmv3.Password (RepositoryOpts (contents s'))
    = helmv3.Password (RepositoryOpts (contents s)) ∧
  helmv3.Username (RepositoryOpts (contents s'))
    = helmv3.Username (RepositoryOpts (contents s)) ∧
  ResetValues (contents s') = ResetValues (contents s) ∧
  ResourceNames (contents s') = ResourceNames (contents s) ∧
  ReuseValues (contents s') = ReuseValues (contents s) ∧
  SkipAwait (contents s') = SkipAwait (contents s) ∧
  SkipCrds (contents s') = SkipCrds (contents s) ∧
  Status (contents s') = Status (contents s) ∧
  Timeout (contents s') = Timeout (contents s) ∧
  ValueYamlFiles (contents s') = ValueYamlFiles (contents s) ∧
  Verify (contents s') = Verify (contents s) ∧
  Version (contents s') = Version (contents s) ∧
  WaitForJobs (contents s') = WaitForJobs (contents s) ∧
  Manifest_at s' = Manifest_at s ∧
  (apart s → Manifest (contents s') = Manifest (contents s)).
Proof.
  intros s'.
  pose proof (InitDefaults_shared_others s chart repo values) as Ho.
  destruct (InitDefaults_shared_spares chart repo values s) as [Hat Hent].
  fold s' in Ho, Hat, Hent. clearbody s'.
  destruct s' as [objs' lm' lv' o']. simpl in Ho, Hat, Hent.
  subst o' lm'. unfold contents.
  repeat (split; [reflexivity |]).
  intros Hs. destruct (Hent Hs) as [_ He]. exact He.
Qed.

(** The call on the record by content and the call on the record with
    its map objects end the same way and leave the same in every field,
    the manifest apart; and the same in the manifest too when the
    manifest and the values do not share their map object. *)
Theorem InitDefaults_shared_agrees s chart repo values :
  (InitDefaults_shared s chart repo values).2
  = (InitDefaults (contents s) chart repo values).2 ∧
  set_Manifest (Manifest (InitDefaults (contents s) chart repo values).1)
    (contents (InitDefaults_shared s chart repo values).1)
  = (InitDefaults (contents s) chart repo values).1 ∧
  (apart s →
   contents (InitDefaults_shared s chart repo values).1
   = (InitDefaults (contents s) chart repo values).1).
Proof.
  pose proof (InitDefaults_shared_values s chart repo values) as Hv.
  cbv zeta in Hv.
  pose proof (InitDefaults_shared_others s chart repo values) as Ho.
  destruct (InitDefaults_shared_spares chart repo values s) as [Hat Hent].
  rewrite (InitDefaults_steps (contents s)).
  change (Values (contents s)) with (entries (objects s) (Values_at s)).
  destruct (InitDefaults_shared s chart repo values)
    as [[objs' lm' lv' o'] out].
  simpl in Hv, Ho, Hat, Hent. subst o' lm'.
  destruct (mapstructure.NewDecoder _) as [err|d].
  - injection Hv as -> Hval. unfold contents; simpl. rewrite Hval.
    split; [done |]. split; [reflexivity |].
    intros Hs. destruct (Hent Hs) as [_ He]. rewrite He. reflexivity.
  - destruct (mapstructure.Decode d values _) as [m [err|]];
      injection Hv as -> Hval; unfold contents; simpl; rewrite Hval;
      (split; [done |]); (split; [reflexivity |]);
      intros Hs; destruct (Hent Hs) as [_ He]; rewrite He; reflexivity.
Qed.

End InitDefaultsShared.

(** C10 as stated fails by content: when the manifest and the values are
    one map object holding the reserved key, [InitDefaults] returns and
    the manifest no longer shows the key, so the manifest field is not
    what it was. *)
Lemma InitDefaults_shared_manifest_changes :
  (InitDefaults_shared one_map "nginx" "https://charts.example.com"
     structdecoder.Nil).2 = Returned ∧
  map_index (Manifest (contents one_map)) FieldHelmOptionsInput
    = Some (GoString "stale") ∧
  map_index
    (Manifest (contents (InitDefaults_shared one_map "nginx"
                           "https://charts.example.com"
                           structdecoder.Nil).1))
    FieldHelmOptionsInput = None ∧
  Manifest (contents (InitDefaults_shared one_map "nginx"
                        "https://charts.example.com" structdecoder.Nil).1)
  ≠ Manifest (contents one_map).
Proof.
  split; [vm_compute; reflexivity |].
  split; [vm_compute; reflexivity |].
  split; [vm_compute; reflexivity |].
  intros Heq.
  apply (f_equal (λ m, map_index m FieldHelmOptionsInput)) in Heq.
  vm_compute in Heq. discriminate Heq.
Qed.

(** C10, as amended, on two map objects with the same entries: the
    payload is decoded into the values, and the manifest shows what it
    showed. *)
Lemma InitDefaults_shared_frame_witness :
  apart two_maps ∧
  Manifest (contents (InitDefaults_shared two_maps "nginx"
                        "https://charts.example.com" nginx.payload).1)
  = Manifest (contents two_maps).
Proof.
  assert (Hapart : apart two_maps) by (right; discriminate).
  split; [exact Hapart |].
  pose proof (InitDefaults_shared_frame two_maps "nginx"
                "https://charts.example.com" nginx.payload) as Hframe.
  cbv zeta in Hframe.
  do 36 (destruct Hframe as [_ Hframe]).
  exact (Hframe Hapart).
Defined.
